(** * a2flight_client: the connection manager, the action protocol and the
      global client facade of [a2flight_client.py], embedded shallowly.

    The Arrow Flight transport (pyarrow.flight) is an external collaborator:
    it is modelled as a function from the history of primitive invocations
    and the current invocation to a reply, so that a second invocation of a
    primitive is free to answer differently from the first one.  Logging
    ([logger.info] and friends) has no effect on control flow and is left
    out; so is the wall-clock 'execution_time_ms' entry of result dicts,
    which is a floating-point difference of [time.time()] readings. *)

From Stdlib Require Import Strings.Ascii Strings.String Strings.Byte.
From stdpp Require Import gmap strings list fin_maps countable pretty.

(** ** Python strings

    Error texts are modelled as [string]s of 8-bit characters; [str.lower]
    acts on the ASCII letters and leaves every other character alone. *)

Module PyStr.

Definition lower_char (c : ascii) : ascii :=
  let n := nat_of_ascii c in
  if (65 <=? n)%nat && (n <=? 90)%nat then ascii_of_nat (n + 32) else c.

(** [s.lower()] *)
Fixpoint lower (s : string) : string :=
  match s with
  | EmptyString => EmptyString
  | String c s' => String (lower_char c) (lower s')
  end.

(** [s.startswith(p)] *)
Fixpoint startswith (p s : string) : bool :=
  match p, s with
  | EmptyString, _ => true
  | String a p', String b s' => if decide (a = b) then startswith p' s' else false
  | String _ _, EmptyString => false
  end.

(** [needle in hay] *)
Fixpoint contains (needle hay : string) : bool :=
  startswith needle hay ||
  match hay with
  | EmptyString => false
  | String _ hay' => contains needle hay'
  end.

(** [s[:n]] *)
Fixpoint take (n : nat) (s : string) : string :=
  match n, s with
  | S n', String c s' => String c (take n' s')
  | _, _ => EmptyString
  end.

(** Truthiness of a [str]: the empty string is falsy. *)
Definition truthy (s : string) : bool :=
  match s with EmptyString => false | _ => true end.

Definition nl : string := String "010"%char EmptyString.
Definition dq : string := String "034"%char EmptyString.

End PyStr.

Abbreviation bytes := (list byte).

(** [s.encode('utf-8')], on the 8-bit model of [str]. *)
Definition utf8_encode (s : string) : bytes := String.list_byte_of_string s.

(** ** Exceptions *)

Inductive exn_class :=
| FlightError            (* raised by pyarrow.flight *)
| ArrowError             (* raised by pyarrow (ipc, table construction) *)
| KeyError
| IndexError
| AttributeError
| TypeError
| ValueError
| A2FlightClientError.   (* the client's own exception class *)

(** An exception is its class and its text, [str(e)]. *)
Record exn := Exn { exn_cls : exn_class; exn_str : string }.

Definition ClientError (msg : string) : exn := Exn A2FlightClientError msg.

(** Pure steps that may raise: [exn + A], sequenced until the first raise. *)
Global Instance raises_bind : MBind (sum exn) :=
  λ A B f x, match x with inl e => inl e | inr a => f a end.

(** ** Columnar tables (pyarrow.Table) *)

(** The Python value of a cell, as [.as_py()] returns it. *)
Inductive pyval :=
| PyNone
| PyBool (b : bool)
| PyInt (z : Z)
| PyStr (s : string)
| PyBytes (b : bytes).

(** [f"{v:,}"]: the thousands separator is for numbers ([bool] is one);
    the errors are the interpreter's.  The text made goes to the log. *)
Definition format_thousands (v : pyval) : exn + unit :=
  match v with
  | PyInt _ | PyBool _ => inr tt
  | PyNone =>
      inl (Exn TypeError "unsupported format string passed to NoneType.__format__")
  | PyStr _ => inl (Exn ValueError "Cannot specify ',' with 's'.")
  | PyBytes _ =>
      inl (Exn TypeError "unsupported format string passed to bytes.__format__")
  end.

Inductive dtype := TBool | TInt64 | TString | TBinary.

Record column := Column {
  col_name : string;
  col_type : dtype;
  col_cells : list pyval
}.

(** A table is its columns in order; Arrow allows two columns of one name. *)
Abbreviation table := (list column).

Module Arrow.

(** [table.schema.names] *)
Definition names (t : table) : list string := col_name <$> t.

(** [table.schema] *)
Definition schema (t : table) : list (string * dtype) :=
  (λ c, (col_name c, col_type c)) <$> t.

(** [table.num_rows] *)
Definition num_rows (t : table) : nat :=
  match t with
  | [] => 0
  | c :: _ => List.length (col_cells c)
  end.

(** [table[name]]: pyarrow looks the name up in the schema and raises
    KeyError both when no field has it and when several have.  The texts
    are pyarrow's; [str] of a KeyError is the [repr] of its argument. *)
Definition getitem (t : table) (name : string) : exn + column :=
  match filter (λ c, col_name c = name) t with
  | [c] => inr c
  | [] =>
      inl (Exn KeyError ("'Field " +:+ PyStr.dq +:+ name +:+ PyStr.dq
                          +:+ " does not exist in schema'"))
  | cs =>
      inl (Exn KeyError ("'Field " +:+ PyStr.dq +:+ name +:+ PyStr.dq
                          +:+ " exists " +:+ pretty (length cs)
                          +:+ " times in schema'"))
  end.

(** [column[0].as_py()] *)
Definition cell0 (c : column) : exn + pyval :=
  match col_cells c with
  | v :: _ => inr v
  | [] => inl (Exn IndexError "index out of bounds")
  end.

(** [pa.table({'table_name': [table_name], 'data': [data_bytes]})]:
    a [str] gives a string column, a [bytes] a binary one. *)
Definition metadata_table (table_name : string) (data_bytes : bytes) : table :=
  [ Column "table_name" TString [PyStr table_name];
    Column "data" TBinary [PyBytes data_bytes] ].

End Arrow.

(** The Arrow IPC streaming format ([pa.ipc.new_stream], [write_table],
    [close] on a [BytesIO]; [pa.ipc.open_stream(...).read_all()]) belongs to
    pyarrow, not to this repository: it is an interface here. *)
Class IpcCodec := {
  ipc_write : table -> bytes;
  ipc_read : bytes -> exn + table
}.

(** What pyarrow promises of the format: a written stream reads back as a
    table with the same schema and data. *)
Class IpcCodecLaws (C : IpcCodec) : Prop := {
  ipc_read_write : forall t : table, ipc_read (ipc_write t) = inr t
}.

(** ** The transport *)

(** An invocation of a transport primitive. *)
Inductive call :=
| FlightClient_new (location : string)          (* flight.FlightClient(location) *)
| list_actions
| authenticate_basic_token (username password : string)
| do_put (path : bytes) (sch : list (string * dtype))
| write_table (t : table)                        (* on the writer of do_put *)
| writer_close                                   (* on the writer of do_put *)
| do_get (ticket : bytes)
| do_action (name : string) (body : bytes)
| client_close.

(** What an invocation gives back.  [r_err] is the exception it raises, if
    any: at the invocation itself, or while its result stream is read, after
    the [r_bodies] (do_action) or [r_batches] (do_get) it delivered. *)
Record reply := Reply {
  r_err : option exn;
  r_bodies : list bytes;
  r_schema : list (string * dtype);
  r_batches : list table
}.

Definition ok_reply : reply := Reply None [] [] [].
Definition err_reply (e : exn) : reply := Reply (Some e) [] [] [].

Record event := Ev { ev_call : call; ev_reply : reply }.

Definition failed (ev : event) : bool :=
  match r_err (ev_reply ev) with Some _ => true | None => false end.

(** The server and the network: the reply to an invocation may depend on
    everything invoked so far. *)
Definition transport := list event -> call -> reply.

(** The primitive an invocation is of. *)
Inductive prim :=
| P_new | P_list_actions | P_authenticate_basic_token | P_do_put
| P_write_table | P_writer_close | P_do_get | P_do_action | P_close.

Definition prim_of (c : call) : prim :=
  match c with
  | FlightClient_new _ => P_new
  | list_actions => P_list_actions
  | authenticate_basic_token _ _ => P_authenticate_basic_token
  | do_put _ _ => P_do_put
  | write_table _ => P_write_table
  | writer_close => P_writer_close
  | do_get _ => P_do_get
  | do_action _ _ => P_do_action
  | client_close => P_close
  end.

Global Instance prim_eq_dec : EqDecision prim.
Proof. solve_decision. Defined.

(** ** Computations: state, exceptions and the trace of invocations

    A computation runs against a transport, after a history, from a state;
    it ends in a value or a raised exception, a state (mutations made
    before a raise stay), and the invocations it made. *)

Record outcome (S A : Type) := Outcome {
  result : exn + A;
  final : S;
  trace : list event
}.
Arguments Outcome {S A} _ _ _.
Arguments result {S A} _.
Arguments final {S A} _.
Arguments trace {S A} _.

Definition M (S A : Type) : Type := transport -> list event -> S -> outcome S A.

Definition ret {S A} (a : A) : M S A := λ _ _ s, Outcome (inr a) s [].

Definition raise {S A} (e : exn) : M S A := λ _ _ s, Outcome (inl e) s [].

Definition bind {S A B} (m : M S A) (k : A -> M S B) : M S B :=
  λ T h s,
    match m T h s with
    | Outcome (inl e) s' tr => Outcome (inl e) s' tr
    | Outcome (inr a) s' tr =>
        match k a T (h ++ tr) s' with
        | Outcome r s'' tr' => Outcome r s'' (tr ++ tr')
        end
    end.

(** [try: m  except Exception as e: handler e] *)
Definition try_except {S A} (m : M S A) (handler : exn -> M S A) : M S A :=
  λ T h s,
    match m T h s with
    | Outcome (inr a) s' tr => Outcome (inr a) s' tr
    | Outcome (inl e) s' tr =>
        match handler e T (h ++ tr) s' with
        | Outcome r s'' tr' => Outcome r s'' (tr ++ tr')
        end
    end.

Definition get {S} : M S S := λ _ _ s, Outcome (inr s) s [].
Definition put {S} (s : S) : M S unit := λ _ _ _, Outcome (inr tt) s [].

(** Invoke a primitive: the reply is returned even when it carries an
    exception; [invoke_] raises it. *)
Definition invoke {S} (c : call) : M S reply :=
  λ T h s, let r := T h c in Outcome (inr r) s [Ev c r].

Definition of_reply {S} (r : reply) : M S reply :=
  match r_err r with
  | Some e => raise e
  | None => ret r
  end.

Definition invoke_ {S} (c : call) : M S reply := bind (invoke c) of_reply.

Definition lift {S A} (r : exn + A) : M S A :=
  match r with
  | inl e => raise e
  | inr a => ret a
  end.

Declare Scope py_scope.
Delimit Scope py_scope with py.
Notation "'do' x <- m ; k" := (bind m (λ x, k))
  (at level 10, x name, m at level 100, k at level 200) : py_scope.
Notation "'run' m ; k" := (bind m (λ _, k))
  (at level 10, m at level 100, k at level 200) : py_scope.

Local Open Scope py_scope.

(** ** The connection manager: class A2FlightClient *)

(** The part of the resolved settings object the client reads;
    [server_location] is the settings' computed 'protocol://host:port'. *)
Record A2FlightClientConfig := Config {
  client_name : string;
  api_key : string;
  server_location : string
}.

(** The transport handle, [flight.FlightClient]. *)
Record FlightClient := Handle { fc_location : string }.

Module A2FlightClient.

(** The instance attributes. *)
Record t := Self {
  config : A2FlightClientConfig;
  _client : option FlightClient;
  _connected : bool
}.

Definition __init__ (cfg : A2FlightClientConfig) : t := Self cfg None false.

Definition set_client (c : option FlightClient) : M t unit :=
  do self <- get; put (Self (config self) c (_connected self)).

Definition set_connected (b : bool) : M t unit :=
  do self <- get; put (Self (config self) (_client self) b).

(** The five texts of [_authenticate]. *)
Definition invalid_api_key_msg (cfg : A2FlightClientConfig) : string :=
  "Authentication failed: Invalid API key for client '" +:+ client_name cfg
  +:+ "'." +:+ PyStr.nl
  +:+ "Verify API key with server administrator." +:+ PyStr.nl
  +:+ "Current API key starts with: " +:+ PyStr.take 12 (api_key cfg) +:+ "...".

Definition ip_not_whitelisted_msg (cfg : A2FlightClientConfig) : string :=
  "Authentication failed: IP address not whitelisted for client '"
  +:+ client_name cfg +:+ "'." +:+ PyStr.nl
  +:+ "Contact server administrator to whitelist your IP address." +:+ PyStr.nl
  +:+ "Check server logs for your detected IP address.".

Definition client_disabled_msg (cfg : A2FlightClientConfig) : string :=
  "Authentication failed: Client '" +:+ client_name cfg +:+ "' is disabled."
  +:+ PyStr.nl
  +:+ "Contact server administrator to enable your client.".

Definition unauthenticated_msg (cfg : A2FlightClientConfig) (e : exn) : string :=
  "Authentication failed for client '" +:+ client_name cfg +:+ "'." +:+ PyStr.nl
  +:+ "Possible reasons:" +:+ PyStr.nl
  +:+ "  - Invalid API key" +:+ PyStr.nl
  +:+ "  - IP address not whitelisted" +:+ PyStr.nl
  +:+ "  - Client disabled on server" +:+ PyStr.nl
  +:+ "Original error: " +:+ exn_str e.

Definition auth_failed_msg (e : exn) : string :=
  "Authentication failed: " +:+ exn_str e.

(** The [except] clause of [_authenticate]. *)
Definition _authenticate_handler (cfg : A2FlightClientConfig) (e : exn) : exn :=
  let error_str := PyStr.lower (exn_str e) in
  if PyStr.contains "invalid api key" error_str then
    ClientError (invalid_api_key_msg cfg)
  else if PyStr.contains "ip not whitelisted" error_str
          || PyStr.contains "access denied" error_str then
    ClientError (ip_not_whitelisted_msg cfg)
  else if PyStr.contains "client disabled" error_str then
    ClientError (client_disabled_msg cfg)
  else if PyStr.contains "unauthenticated" error_str then
    ClientError (unauthenticated_msg cfg e)
  else
    ClientError (auth_failed_msg e).

(** What [self._client.authenticate_basic_token] raises when [_client] is
    None, in the words of the interpreter. *)
Definition no_handle_error : exn :=
  Exn AttributeError
      "'NoneType' object has no attribute 'authenticate_basic_token'".

Definition _authenticate : M t unit :=
  do self <- get;
  try_except
    (run match _client self with
         | Some _ =>
             invoke_ (authenticate_basic_token (client_name (config self))
                                               (api_key (config self)))
         | None => raise no_handle_error
         end;
     ret tt)
    (λ e, raise (_authenticate_handler (config self) e)).

Definition not_running_msg (cfg : A2FlightClientConfig) : string :=
  "Arrow Flight server is not running at " +:+ server_location cfg.

(** [if self.config.api_key and self.config.api_key != '<to be entered>'] *)
Definition credential_configured (cfg : A2FlightClientConfig) : bool :=
  PyStr.truthy (api_key cfg) && bool_decide (api_key cfg ≠ "<to be entered>").

(** The [except] clause around the [list_actions] probe. *)
Definition probe_handler (e : exn) : M t unit :=
  let s := PyStr.lower (exn_str e) in
  if PyStr.contains "unauthenticated" s || PyStr.contains "unauthorized" s then
    _authenticate
  else if PyStr.contains "unimplemented" s && PyStr.contains "authentication" s then
    ret tt
  else
    raise e.

(** The outer [except] clause of [connect]. *)
Definition connect_handler (cfg : A2FlightClientConfig) (e : exn) : exn :=
  let error_str := PyStr.lower (exn_str e) in
  if PyStr.contains "unavailable" error_str
     || PyStr.contains "failed to connect" error_str
     || PyStr.contains "connection refused" error_str then
    ClientError (not_running_msg cfg)
  else
    ClientError ("Connection failed: " +:+ exn_str e).

Definition connect : M t bool :=
  do self <- get;
  let cfg := config self in
  try_except
    (run invoke_ (FlightClient_new (server_location cfg));
     run set_client (Some (Handle (server_location cfg)));
     run (if credential_configured cfg then
            try_except (run invoke_ list_actions; ret tt) probe_handler
          else ret tt);
     run set_connected true;
     ret true)
    (λ e, raise (connect_handler cfg e)).

Definition _ensure_connected : M t unit :=
  do self <- get;
  if negb (_connected self) || bool_decide (_client self = None) then
    raise (ClientError "Not connected. Call connect() first.")
  else ret tt.

(** *** INSERT *)

Definition insert_handler (cfg : A2FlightClientConfig) (e : exn) : exn :=
  let error_str := PyStr.lower (exn_str e) in
  if PyStr.contains "unavailable" error_str
     || PyStr.contains "failed to connect" error_str then
    ClientError (not_running_msg cfg)
  else
    ClientError ("INSERT failed: " +:+ exn_str e).

Definition insert (arrow_table : table) (table_name : string)
  : M t (gmap string pyval) :=
  run _ensure_connected;
  do self <- get;
  try_except
    (run invoke_ (do_put (utf8_encode table_name) (Arrow.schema arrow_table));
     run invoke_ (write_table arrow_table);
     run invoke_ writer_close;
     ret ({[ "success" := PyBool true;
             "rows_written" := PyInt (Z.of_nat (Arrow.num_rows arrow_table));
             "method_used" := PyStr "flight" ]} : gmap string pyval))
    (λ e, raise (insert_handler (config self) e)).

(** *** SELECT *)

(** The cells of column [i] over all record batches, in order. *)
Definition concat_cells (i : nat) (batches : list table) : list pyval :=
  List.concat ((λ b, from_option col_cells [] (b !! i)) <$> batches).

(** [reader.read_all()]: the whole stream as one table, or the
    exception the stream ends in. *)
Definition read_all (r : reply) : exn + table :=
  match r_err r with
  | Some e => inl e
  | None =>
      inr (imap (λ i f, Column f.1 f.2 (concat_cells i (r_batches r)))
                (r_schema r))
  end.

Definition select (query : string) (params : option (list pyval)) : M t table :=
  run _ensure_connected;
  try_except
    (do reader <- invoke (do_get (utf8_encode query));
     lift (read_all reader))
    (λ e, raise (ClientError ("SELECT failed: " +:+ exn_str e))).

(** [select_streaming] is an async generator: nothing runs before it is
    iterated.  The computation below is the generator driven to its end;
    it returns the chunks it yielded, or raises what the iteration
    raises (the chunks yielded before a failure of the stream are the
    [r_batches] of the failed invocation in the trace). *)
Definition select_streaming (query : string) : M t (list table) :=
  run _ensure_connected;
  try_except
    (do reader <- invoke_ (do_get (utf8_encode query));
     ret (r_batches reader))
    (λ e, raise (ClientError ("SELECT streaming failed: " +:+ exn_str e))).

(** *** UPDATE and DELETE *)

Section Actions.
Context {codec : IpcCodec}.

(** [for result in result_stream: result_bytes += result.body] *)
Definition read_result_stream (r : reply) : exn + bytes :=
  match r_err r with
  | Some e => inl e
  | None => inr (List.concat (r_bodies r))
  end.

(** The result dict, its entries evaluated in the order written. *)
Definition extract_result (response_table : table) : exn + gmap string pyval :=
  success ← Arrow.getitem response_table "success" ≫= Arrow.cell0;
  rows_affected ← Arrow.getitem response_table "rows_affected" ≫= Arrow.cell0;
  method_used ←
    (if bool_decide ("method_used" ∈ Arrow.names response_table)
     then Arrow.getitem response_table "method_used" ≫= Arrow.cell0
     else inr PyNone);
  inr ({[ "success" := success;
          "rows_affected" := rows_affected;
          "method_used" := method_used ]} : gmap string pyval).

(** The log line '... complete', written inside the [try]: it formats
    [result['rows_affected']] with a thousands separator. *)
Definition log_complete (result : gmap string pyval) : exn + unit :=
  match result !! "rows_affected" with
  | Some rows_affected => format_thousands rows_affected
  | None => inl (Exn KeyError "'rows_affected'")
  end.

Definition update (arrow_table : table) (table_name : string)
  : M t (gmap string pyval) :=
  run _ensure_connected;
  try_except
    (let data_bytes := ipc_write arrow_table in
     let metadata_table := Arrow.metadata_table table_name data_bytes in
     do result_stream <- invoke (do_action "update" (ipc_write metadata_table));
     do result_bytes <- lift (read_result_stream result_stream);
     do response_table <- lift (ipc_read result_bytes);
     do result <- lift (extract_result response_table);
     run lift (log_complete result);
     ret result)
    (λ e, raise (ClientError ("UPDATE failed: " +:+ exn_str e))).

Definition delete (arrow_table : table) (table_name : string)
  : M t (gmap string pyval) :=
  run _ensure_connected;
  try_except
    (let data_bytes := ipc_write arrow_table in
     let metadata_table := Arrow.metadata_table table_name data_bytes in
     do result_stream <- invoke (do_action "delete" (ipc_write metadata_table));
     do result_bytes <- lift (read_result_stream result_stream);
     do response_table <- lift (ipc_read result_bytes);
     do result <- lift (extract_result response_table);
     run lift (log_complete result);
     ret result)
    (λ e, raise (ClientError ("DELETE failed: " +:+ exn_str e))).

End Actions.

(** *** Connection management *)

Definition close : M t unit :=
  do self <- get;
  match _client self with
  | Some _ =>
      run try_except (run invoke_ client_close; ret tt) (λ _, ret tt);
      put (Self (config self) None false)
  | None => ret tt
  end.

Definition is_connected (self : t) : bool :=
  _connected self && bool_decide (_client self ≠ None).

End A2FlightClient.

(** ** The configuration loader: a2flight_cl_config.py

    The settings object the client is built from.  As for the error texts,
    strings are read as ASCII text: [upper], [isalnum] and [strip] act on
    the ASCII letters, digits and white space. *)

Module PyText.

(** [c.isspace()] *)
Definition is_space (c : ascii) : bool :=
  let n := nat_of_ascii c in
  ((9 <=? n) && (n <=? 13)) || ((28 <=? n) && (n <=? 32)).

Definition is_alnum_char (c : ascii) : bool :=
  let n := nat_of_ascii c in
  ((48 <=? n) && (n <=? 57)) || ((65 <=? n) && (n <=? 90))
  || ((97 <=? n) && (n <=? 122)).

Definition upper_char (c : ascii) : ascii :=
  let n := nat_of_ascii c in
  if (97 <=? n) && (n <=? 122) then ascii_of_nat (n - 32) else c.

(** [s.upper()] *)
Fixpoint upper (s : string) : string :=
  match s with
  | EmptyString => EmptyString
  | String c s' => String (upper_char c) (upper s')
  end.

Fixpoint all_chars (p : ascii -> bool) (s : string) : bool :=
  match s with
  | EmptyString => true
  | String c s' => p c && all_chars p s'
  end.

(** [s.isalnum()]: false on the empty string. *)
Definition isalnum (s : string) : bool :=
  PyStr.truthy s && all_chars is_alnum_char s.

(** [s.replace(c, '')] for a one-character [c]. *)
Fixpoint remove_char (c : ascii) (s : string) : string :=
  match s with
  | EmptyString => EmptyString
  | String a s' => if decide (a = c) then remove_char c s'
                   else String a (remove_char c s')
  end.

Fixpoint lstrip_by (p : ascii -> bool) (s : string) : string :=
  match s with
  | EmptyString => EmptyString
  | String c s' => if p c then lstrip_by p s' else s
  end.

Fixpoint rstrip_by (p : ascii -> bool) (s : string) : string :=
  match s with
  | EmptyString => EmptyString
  | String c s' =>
      match rstrip_by p s' with
      | EmptyString => if p c then EmptyString else String c EmptyString
      | r => String c r
      end
  end.

Definition strip_by (p : ascii -> bool) (s : string) : string :=
  rstrip_by p (lstrip_by p s).

(** [s.strip()] *)
Definition strip (s : string) : string := strip_by is_space s.

(** [s.strip(c)] for a one-character [c]. *)
Definition strip_char (c : ascii) (s : string) : string :=
  strip_by (λ a, bool_decide (a = c)) s.

(** [s.split(c, 1)] when [c in s]: what is before and after the first
    [c]; [None] when [c] is not in [s]. *)
Fixpoint split_once (c : ascii) (s : string) : option (string * string) :=
  match s with
  | EmptyString => None
  | String a s' =>
      if decide (a = c) then Some (EmptyString, s')
      else match split_once c s' with
           | Some (before, after) => Some (String a before, after)
           | None => None
           end
  end.

(** [s.split(c)] *)
Fixpoint split (c : ascii) (s : string) : list string :=
  match s with
  | EmptyString => [EmptyString]
  | String a s' =>
      if decide (a = c) then EmptyString :: split c s'
      else match split c s' with
           | piece :: pieces => String a piece :: pieces
           | [] => [String a EmptyString]
           end
  end.

(** [sep.join(l)] *)
Fixpoint join (sep : string) (l : list string) : string :=
  match l with
  | [] => EmptyString
  | [s] => s
  | s :: l' => s +:+ sep +:+ join sep l'
  end.

(** [str(b)] *)
Definition str_bool (b : bool) : string := if b then "True" else "False".

End PyText.

(** What the configuration code takes from the interpreter: floating-point
    numbers with their literals, comparison and text; the parsing done by
    [int()] and [float()], [None] standing for ValueError; and the order in
    which a set literal of the four operation names is iterated. *)
Class PyRuntime := {
  pyfloat : Type;
  float_1_0 : pyfloat;
  float_2_0 : pyfloat;
  float_10_0 : pyfloat;
  float_le : pyfloat -> pyfloat -> bool;
  float_str : pyfloat -> string;
  py_int : string -> option Z;
  py_float : string -> option pyfloat;
  valid_ops_iter : list string
}.

Module ConnectionProtocol.
Definition GRPC : string := "grpc".
Definition GRPC_TLS : string := "grpc+tls".
Definition VALID : list string := [GRPC; GRPC_TLS].
End ConnectionProtocol.

Module Environment.
Definition DEVELOPMENT : string := "development".
Definition STAGING : string := "staging".
Definition PRODUCTION : string := "production".
Definition VALID : list string := [DEVELOPMENT; STAGING; PRODUCTION].
End Environment.

Module LogLevel.
Definition DEBUG : string := "DEBUG".
Definition INFO : string := "INFO".
Definition WARNING : string := "WARNING".
Definition ERROR : string := "ERROR".
Definition CRITICAL : string := "CRITICAL".
Definition VALID : list string := [DEBUG; INFO; WARNING; ERROR; CRITICAL].
End LogLevel.

(** The part of the settings the client reads, put together. *)
Definition client_settings (name key location : string) : A2FlightClientConfig :=
  Config name key location.

(** What the loader reads from the machine: the environment variable
    A2FLIGHT_CLIENT_CONFIG_PATH, which paths exist, and the lines of a file
    as iterating over it gives them ([None] when opening or reading it
    raises). *)
Record FileSystem := {
  getenv_config_path : option string;
  path_exists : string -> bool;
  read_lines : string -> option (list string)
}.

Module a2flight_cl_config.
Section WithRuntime.
Context {rt : PyRuntime}.

(** The dataclass, all its fields. *)
Record A2FlightClientConfig := Dataclass {
  client_name : string;
  api_key : string;
  server_host : string;
  server_port : Z;
  connection_protocol : string;
  connection_pool_size : Z;
  max_connections : Z;
  connection_timeout : Z;
  idle_timeout : Z;
  keepalive_enabled : bool;
  keepalive_interval : Z;
  keepalive_timeout : Z;
  request_timeout : Z;
  max_retries : Z;
  retry_delay : Z;
  retry_backoff : pyfloat;
  stream_chunk_size : Z;
  enable_compression : bool;
  max_message_size : Z;
  enable_request_logging : bool;
  log_level : string;
  log_api_keys : bool;
  enable_metrics : bool;
  metrics_interval : Z;
  circuit_breaker_enabled : bool;
  circuit_breaker_failure_threshold : Z;
  circuit_breaker_timeout : Z;
  fallback_to_direct_db : bool;
  environment : string;
  version : string;
  service_name : string;
  allowed_server_ips : list string;
  allowed_operations : list string
}.

(** [A2FlightClientConfig()]: the defaults of the dataclass. *)
Definition defaults : A2FlightClientConfig := {|
  client_name := "etl";
  api_key := "<to be entered>";
  server_host := "localhost";
  server_port := 50054;
  connection_protocol := ConnectionProtocol.GRPC;
  connection_pool_size := 8;
  max_connections := 16;
  connection_timeout := 30;
  idle_timeout := 300;
  keepalive_enabled := true;
  keepalive_interval := 60;
  keepalive_timeout := 20;
  request_timeout := 300;
  max_retries := 3;
  retry_delay := 1;
  retry_backoff := float_2_0;
  stream_chunk_size := 500000;
  enable_compression := false;
  max_message_size := 100 * 1024 * 1024;
  enable_request_logging := false;
  log_level := LogLevel.INFO;
  log_api_keys := false;
  enable_metrics := true;
  metrics_interval := 60;
  circuit_breaker_enabled := true;
  circuit_breaker_failure_threshold := 5;
  circuit_breaker_timeout := 60;
  fallback_to_direct_db := false;
  environment := Environment.DEVELOPMENT;
  version := "2.1";
  service_name := "a2flight_client";
  allowed_server_ips := [];
  allowed_operations := ["SELECT"; "INSERT"; "UPDATE"; "DELETE"]
|}.

(** The property [server_location]. *)
Definition server_location (self : A2FlightClientConfig) : string :=
  connection_protocol self +:+ "://" +:+ server_host self +:+ ":"
  +:+ pretty (server_port self).

(** The property [is_production]. *)
Definition is_production (self : A2FlightClientConfig) : bool :=
  bool_decide (environment self = Environment.PRODUCTION).

(** [low <= x <= high] *)
Definition between (low x high : Z) : bool := (low <=? x)%Z && (x <=? high)%Z.

(** One step of [validate_config]: the error appended when a check fails. *)
Definition error_if (failed : bool) (msg : string) : list string :=
  if failed then [msg] else [].

(** [validate_config]: the blocking errors, in the order they are
    appended.  The warnings are only logged. *)
Definition validate_config (config : A2FlightClientConfig) : list string :=
  (* client identity *)
  (if negb (PyStr.truthy (client_name config))
      || (String.length (client_name config) =? 0) then
     ["client_name is required"]
   else if 50 <? String.length (client_name config) then
     ["client_name too long: " +:+ pretty (String.length (client_name config))
      +:+ " chars (max 50)"]
   else if negb (PyText.isalnum (PyText.remove_char "_" (client_name config))) then
     ["client_name must be alphanumeric with underscores only"]
   else [])
  ++ (if negb (PyStr.truthy (api_key config))
         || bool_decide (api_key config = "<to be entered>") then
        ["API key must be obtained from server administrator. "
         +:+ "Update a2flight_cl.env with real API key."]
      else if String.length (api_key config) <? 32 then
        ["API key too short: " +:+ pretty (String.length (api_key config))
         +:+ " chars (min 32)"]
      else if negb (PyStr.startswith "a2db_key_" (api_key config)) then
        ["Invalid API key format. Must start with 'a2db_key_'"]
      else [])
  (* server connection; 'localhost' in production is a warning *)
  ++ error_if (negb (PyStr.truthy (server_host config))) "server_host is required"
  ++ error_if (negb (between 1024 (server_port config) 65535))
       ("server_port must be 1024-65535, got " +:+ pretty (server_port config))
  ++ error_if (bool_decide (connection_protocol config ∉ ConnectionProtocol.VALID))
       ("Invalid connection_protocol: " +:+ connection_protocol config +:+ ". "
        +:+ "Must be one of: " +:+ PyText.join ", " ConnectionProtocol.VALID)
  (* connection pool *)
  ++ error_if ((connection_pool_size config <? 1)%Z
               || (100 <? connection_pool_size config)%Z)
       ("connection_pool_size must be 1-100, got "
        +:+ pretty (connection_pool_size config))
  ++ error_if ((max_connections config <? 1)%Z || (200 <? max_connections config)%Z)
       ("max_connections must be 1-200, got " +:+ pretty (max_connections config))
  ++ error_if (max_connections config <? connection_pool_size config)%Z
       ("connection_pool_size (" +:+ pretty (connection_pool_size config) +:+ ") "
        +:+ "cannot exceed max_connections (" +:+ pretty (max_connections config)
        +:+ ")")
  ++ error_if (negb (between 5 (connection_timeout config) 300))
       ("connection_timeout must be 5-300s, got "
        +:+ pretty (connection_timeout config))
  ++ error_if (negb (between 60 (idle_timeout config) 3600))
       ("idle_timeout must be 60-3600s, got " +:+ pretty (idle_timeout config))
  (* requests *)
  ++ error_if (negb (between 10 (request_timeout config) 3600))
       ("request_timeout must be 10-3600s, got " +:+ pretty (request_timeout config))
  ++ error_if (negb (between 0 (max_retries config) 10))
       ("max_retries must be 0-10, got " +:+ pretty (max_retries config))
  ++ error_if (negb (float_le float_1_0 (retry_backoff config)
                     && float_le (retry_backoff config) float_10_0))
       ("retry_backoff must be 1.0-10.0, got " +:+ float_str (retry_backoff config))
  (* data transfer *)
  ++ error_if (negb (between 1000 (stream_chunk_size config) 10000000))
       ("stream_chunk_size must be 1K-10M rows, got "
        +:+ pretty (stream_chunk_size config))
  ++ error_if (negb (between (1024 * 1024) (max_message_size config)
                             (1024 * 1024 * 1024)))
       ("max_message_size must be 1MB-1GB, got "
        +:+ pretty (max_message_size config))
  (* monitoring *)
  ++ error_if (bool_decide (log_level config ∉ LogLevel.VALID))
       ("Invalid log_level: " +:+ log_level config +:+ ". "
        +:+ "Must be one of: " +:+ PyText.join ", " LogLevel.VALID)
  ++ error_if (negb (between 10 (metrics_interval config) 3600))
       ("metrics_interval must be 10-3600s, got "
        +:+ pretty (metrics_interval config))
  (* error handling *)
  ++ error_if (negb (between 1 (circuit_breaker_failure_threshold config) 100))
       ("circuit_breaker_failure_threshold must be 1-100, " +:+ "got "
        +:+ pretty (circuit_breaker_failure_threshold config))
  ++ error_if (negb (between 10 (circuit_breaker_timeout config) 600))
       ("circuit_breaker_timeout must be 10-600s, got "
        +:+ pretty (circuit_breaker_timeout config))
  (* deployment *)
  ++ error_if (bool_decide (environment config ∉ Environment.VALID))
       ("Invalid environment: " +:+ environment config +:+ ". "
        +:+ "Must be one of: " +:+ PyText.join ", " Environment.VALID)
  (* production security; 'grpc' without TLS is a warning *)
  ++ error_if (is_production config && log_api_keys config)
       "log_api_keys must be False in production environment!"
  (* operations *)
  ++ (op ← allowed_operations config;
      error_if (bool_decide (PyText.upper op ∉ ["SELECT"; "INSERT"; "UPDATE"; "DELETE"]))
        ("Invalid operation: " +:+ op +:+ ". Must be one of: "
         +:+ PyText.join ", " valid_ops_iter)).

(** *** load_from_env *)

(** One line of the file: the assignment it makes, if any. *)
Definition parse_line (line : string) : option (string * string) :=
  let line := PyText.strip line in
  if PyStr.truthy line && negb (PyStr.startswith "#" line) then
    match PyText.split_once "=" line with
    | Some (key, value) =>
        Some (PyText.strip key,
              PyText.strip_char "'" (PyText.strip_char "034" (PyText.strip value)))
    | None => None
    end
  else None.

(** The dict [env_vars] after the loop over the lines. *)
Definition parse_lines (lines : list string) : gmap string string :=
  foldl (λ env_vars line,
           match parse_line line with
           | Some (key, value) => <[key := value]> env_vars
           | None => env_vars
           end) ∅ lines.

Section Getters.
Variable env_vars : gmap string string.

Definition env_get (key : string) : option string :=
  env_vars !! ("A2FLIGHT_" +:+ key).

Definition get_str (key default : string) : string :=
  from_option id default (env_get key).

Definition get_int (key : string) (default : Z) : Z :=
  match env_get key with
  | Some s => from_option id default (py_int s)
  | None => default
  end.

Definition get_float (key : string) (default : pyfloat) : pyfloat :=
  match env_get key with
  | Some s => from_option id default (py_float s)
  | None => default
  end.

Definition get_bool (key : string) (default : bool) : bool :=
  let val := PyStr.lower (from_option id (PyText.str_bool default) (env_get key)) in
  bool_decide (val ∈ ["true"; "1"; "yes"; "on"]).

Definition get_list (key : string) (default : list string) : list string :=
  let val := from_option id "" (env_get key) in
  if PyStr.truthy val then
    filter (λ item, PyStr.truthy item = true) (PyText.strip <$> PyText.split "," val)
  else default.

(** The configuration built from [env_vars]. *)
Definition build : A2FlightClientConfig := {|
  client_name := get_str "CLIENT_NAME" "etl";
  api_key := get_str "CLIENT_API_KEY" "<to be entered>";
  server_host := get_str "SERVER_HOST" "localhost";
  server_port := get_int "SERVER_PORT" 50054;
  connection_protocol := get_str "CONNECTION_PROTOCOL" ConnectionProtocol.GRPC;
  connection_pool_size := get_int "CLIENT_CONNECTION_POOL_SIZE" 8;
  max_connections := get_int "CLIENT_MAX_CONNECTIONS" 16;
  connection_timeout := get_int "CLIENT_CONNECTION_TIMEOUT" 30;
  idle_timeout := get_int "CLIENT_IDLE_TIMEOUT" 300;
  keepalive_enabled := get_bool "CLIENT_KEEPALIVE_ENABLED" true;
  keepalive_interval := get_int "CLIENT_KEEPALIVE_INTERVAL" 60;
  keepalive_timeout := get_int "CLIENT_KEEPALIVE_TIMEOUT" 20;
  request_timeout := get_int "CLIENT_REQUEST_TIMEOUT" 300;
  max_retries := get_int "CLIENT_MAX_RETRIES" 3;
  retry_delay := get_int "CLIENT_RETRY_DELAY" 1;
  retry_backoff := get_float "CLIENT_RETRY_BACKOFF" float_2_0;
  stream_chunk_size := get_int "CLIENT_STREAM_CHUNK_SIZE" 500000;
  enable_compression := get_bool "CLIENT_ENABLE_COMPRESSION" false;
  max_message_size := get_int "CLIENT_MAX_MESSAGE_SIZE" (100 * 1024 * 1024);
  enable_request_logging := get_bool "CLIENT_ENABLE_REQUEST_LOGGING" false;
  log_level := get_str "CLIENT_LOG_LEVEL" LogLevel.INFO;
  log_api_keys := get_bool "CLIENT_LOG_API_KEYS" false;
  enable_metrics := get_bool "CLIENT_ENABLE_METRICS" true;
  metrics_interval := get_int "CLIENT_METRICS_INTERVAL" 60;
  circuit_breaker_enabled := get_bool "CLIENT_CIRCUIT_BREAKER_ENABLED" true;
  circuit_breaker_failure_threshold :=
    get_int "CLIENT_CIRCUIT_BREAKER_FAILURE_THRESHOLD" 5;
  circuit_breaker_timeout := get_int "CLIENT_CIRCUIT_BREAKER_TIMEOUT" 60;
  fallback_to_direct_db := get_bool "CLIENT_FALLBACK_TO_DIRECT_DB" false;
  environment := get_str "CLIENT_ENVIRONMENT" Environment.DEVELOPMENT;
  version := get_str "CLIENT_VERSION" "2.1";
  service_name := get_str "CLIENT_SERVICE_NAME" "a2flight_client";
  allowed_server_ips := get_list "CLIENT_ALLOWED_SERVER_IPS" [];
  allowed_operations :=
    get_list "CLIENT_ALLOWED_OPERATIONS" ["SELECT"; "INSERT"; "UPDATE"; "DELETE"]
|}.

End Getters.

(** The paths tried when no file is named, in order. *)
Definition search_paths : list string :=
  [ "a2flight_cl.env"; "a2flight_cl/a2flight_cl.env";
    "../a2flight_cl/a2flight_cl.env" ].

(** The first search path that exists. *)
Definition first_existing (fs : FileSystem) : option string :=
  head (filter (λ path, path_exists fs path = true) search_paths).

(** The file to read: the one given; else the one the environment variable
    names, when it is set and not empty; else the first search path that
    exists. *)
Definition resolve_env_file (fs : FileSystem) (env_file : option string)
  : option string :=
  match env_file with
  | Some path => Some path
  | None =>
      match getenv_config_path fs with
      | Some env_path_str =>
          if PyStr.truthy env_path_str then Some env_path_str
          else first_existing fs
      | None => first_existing fs
      end
  end.

Definition load_from_env (fs : FileSystem) (env_file : option string)
  : A2FlightClientConfig :=
  match resolve_env_file fs env_file with
  | None => defaults
  | Some path =>
      if negb (path_exists fs path) then defaults
      else match read_lines fs path with
           | None => defaults
           | Some lines => build (parse_lines lines)
           end
  end.

(** *** The singleton *)

(** [get_flight_client_config]: the module variable [_config_instance] is
    the state; the result is the configuration, or the text of the
    ValueError raised. *)
Definition get_flight_client_config (fs : FileSystem) (env_file : option string)
    (reload : bool) (_config_instance : option A2FlightClientConfig)
  : (string + A2FlightClientConfig) * option A2FlightClientConfig :=
  let load :=
    let loaded := load_from_env fs env_file in
    let errors := validate_config loaded in
    match errors with
    | [] => (inr loaded, Some loaded)
    | _ =>
        (inl ("Configuration validation failed:" +:+ PyStr.nl
              +:+ PyText.join PyStr.nl ((λ e, "  - " +:+ e) <$> errors)),
         Some loaded)
    end in
  match _config_instance with
  | None => load
  | Some config => if reload then load else (inr config, Some config)
  end.

(** What [A2FlightClient] reads of a configuration. *)
Definition client_view (config : A2FlightClientConfig) :=
  client_settings (client_name config) (api_key config) (server_location config).

(** [A2FlightClient(config)]: [config or get_flight_client_config()]. *)
Definition new_client (fs : FileSystem) (config : option A2FlightClientConfig)
    (_config_instance : option A2FlightClientConfig)
  : (string + A2FlightClient.t) * option A2FlightClientConfig :=
  match config with
  | Some config =>
      (inr (A2FlightClient.__init__ (client_view config)), _config_instance)
  | None =>
      match get_flight_client_config fs None false _config_instance with
      | (inl error_msg, st) => (inl error_msg, st)
      | (inr config, st) => (inr (A2FlightClient.__init__ (client_view config)), st)
      end
  end.

End WithRuntime.
End a2flight_cl_config.

(** ** The module-level API: one shared client

    Client objects live in a store and are referred to by their index, so
    that a client the module no longer refers to still exists.  The state
    of the API is the module variable [_global_client] and, since
    [A2FlightClient()] resolves the settings through
    [get_flight_client_config()], the [_config_instance] of the
    configuration module. *)

Record module_state {rt : PyRuntime} := ModuleState {
  objects : list A2FlightClient.t;
  _global_client : option nat;
  _config_instance : option a2flight_cl_config.A2FlightClientConfig
}.
Arguments ModuleState {rt} _ _ _.
Arguments objects {rt} _.
Arguments _global_client {rt} _.
Arguments _config_instance {rt} _.

Global Instance A2FlightClient_inhabited : Inhabited A2FlightClient.t :=
  populate (A2FlightClient.__init__ (Config "" "" "")).

(** Run a method on the object that [i] refers to. *)
Definition on_object {rt : PyRuntime} {A} (i : nat) (m : M A2FlightClient.t A)
  : M module_state A :=
  λ T h g,
    match m T h (objects g !!! i) with
    | Outcome r self tr =>
        Outcome r (ModuleState (<[i := self]> (objects g)) (_global_client g)
                               (_config_instance g)) tr
    end.

Section ModuleAPI.
Context {codec : IpcCodec} {rt : PyRuntime}.

(** What the settings are loaded from, when they are. *)
Variable fs : FileSystem.

(** [_global_client = A2FlightClient(); await _global_client.connect()].
    [A2FlightClient()] raises the ValueError of
    [get_flight_client_config()]: no client is made then and the
    reference stays as it is, but the settings instance stays loaded. *)
Definition new_global_client : M module_state nat :=
  do g <- get;
  match a2flight_cl_config.new_client fs None (_config_instance g) with
  | (inl error_msg, instance) =>
      run put (ModuleState (objects g) (_global_client g) instance);
      raise (Exn ValueError error_msg)
  | (inr client, instance) =>
      let i := List.length (objects g) in
      run put (ModuleState (objects g ++ [client]) (Some i) instance);
      run on_object i A2FlightClient.connect;
      ret i
  end.

Definition _get_global_client : M module_state nat :=
  do g <- get;
  match _global_client g with
  | None => new_global_client
  | Some i =>
      if A2FlightClient.is_connected (objects g !!! i) then ret i
      else new_global_client
  end.

Definition a2db_ins (arrow_table : table) (table_name : string)
  : M module_state (gmap string pyval) :=
  do client <- _get_global_client;
  on_object client (A2FlightClient.insert arrow_table table_name).

Definition a2db_sel (query : string) (params : option (list pyval))
  : M module_state table :=
  do client <- _get_global_client;
  on_object client (A2FlightClient.select query params).

Definition a2db_updt (arrow_table : table) (table_name : string)
  : M module_state (gmap string pyval) :=
  do client <- _get_global_client;
  on_object client (A2FlightClient.update arrow_table table_name).

Definition a2db_del (arrow_table : table) (table_name : string)
  : M module_state (gmap string pyval) :=
  do client <- _get_global_client;
  on_object client (A2FlightClient.delete arrow_table table_name).

End ModuleAPI.

(** [a2db_close] *)
Definition a2db_close {rt : PyRuntime} : M module_state unit :=
  do g <- get;
  match _global_client g with
  | Some i =>
      run on_object i A2FlightClient.close;
      do g' <- get;
      put (ModuleState (objects g') None (_config_instance g'))
  | None => ret tt
  end.

(** ** Vocabulary of the properties *)

Definition demo_config : A2FlightClientConfig :=
  Config "etl" "a2db_key_5f2c9e7a41b8d3c6f0a1b2c3d4e5f6a7" "grpc://localhost:8815".

(** A transport that answers every invocation alike. *)
Definition always (r : reply) : transport := λ _ _, r.

(** The number of invocations of a primitive in a trace. *)
Definition invocations (p : prim) (tr : list event) : nat :=
  length (filter (λ ev, prim_of (ev_call ev) = p) tr).

Section ConnectCases.
Import PyStr A2FlightClient.

(** The probe's failure is classified into: authentication needed,
    no authentication layer, or anything else. *)
Definition auth_class (e : exn) : bool :=
  let s := lower (exn_str e) in
  contains "unauthenticated" s || contains "unauthorized" s.

Definition no_auth_class (e : exn) : bool :=
  let s := lower (exn_str e) in
  contains "unimplemented" s && contains "authentication" s.

(** The invocations of [connect], in order. *)
Definition ev_new (T : transport) (h : list event) cfg : event :=
  Ev (FlightClient_new (server_location cfg))
     (T h (FlightClient_new (server_location cfg))).

Definition ev_probe (T : transport) (h : list event) cfg : event :=
  Ev list_actions (T (h ++ [ev_new T h cfg]) list_actions).

Definition ev_auth (T : transport) (h : list event) cfg : event :=
  let c := authenticate_basic_token (client_name cfg) (api_key cfg) in
  Ev c (T (h ++ [ev_new T h cfg; ev_probe T h cfg]) c).

(** The client after the handle is stored, and after [connect] returns. *)
Definition opened (self : t) : t :=
  Self (config self) (Some (Handle (server_location (config self))))
       (_connected self).

Definition connected (self : t) : t :=
  Self (config self) (Some (Handle (server_location (config self)))) true.


End ConnectCases.

(** ** Transports used as examples *)

(** Has the history a successful handshake with these credentials? *)
Definition authenticated (user key : string) (h : list event) : bool :=
  existsb (λ ev,
             match ev_call ev, r_err (ev_reply ev) with
             | authenticate_basic_token u k, None =>
                 bool_decide (u = user ∧ k = key)
             | _, _ => false
             end) h.

(** A server with an authentication layer: everything but the handshake is
    refused until the handshake has succeeded. *)
Definition secured_server (user key : string) : transport :=
  λ h c,
    match c with
    | FlightClient_new _ => ok_reply
    | client_close => ok_reply
    | authenticate_basic_token u k =>
        if bool_decide (u = user ∧ k = key) then ok_reply
        else err_reply (Exn FlightError "Unauthenticated: invalid api key")
    | _ =>
        if authenticated user key h then ok_reply
        else err_reply (Exn FlightError
               "Flight returned unauthenticated error, with message: no token")
    end.

(** No server at the other end: the handle is made locally, every
    round-trip fails. *)
Definition unreachable_server : transport :=
  λ _ c,
    match c with
    | FlightClient_new _ => ok_reply
    | client_close => ok_reply
    | _ => err_reply (Exn FlightError
             "Flight returned unavailable error, with message: failed to connect to all addresses")
    end.

(** A server whose introspection call fails with [e] and which is fine
    otherwise. *)
Definition probe_fails (e : exn) : transport :=
  λ _ c,
    match c with
    | list_actions => err_reply e
    | _ => ok_reply
    end.

Definition unset_config : A2FlightClientConfig :=
  Config "etl" "<to be entered>" "grpc://localhost:8815".

(** ** Calls on a client object *)

(** A method call on a client, with its arguments. *)
Inductive method_call :=
| m_connect
| m_insert (arrow_table : table) (table_name : string)
| m_select (query : string) (params : option (list pyval))
| m_select_streaming (query : string)
| m_update (arrow_table : table) (table_name : string)
| m_delete (arrow_table : table) (table_name : string)
| m_close.

(** Run a computation for its effects. *)
Definition void {S A} (m : M S A) : M S unit := bind m (λ _, ret tt).

Definition call_method {codec : IpcCodec} (c : method_call) : M A2FlightClient.t unit :=
  match c with
  | m_connect => void A2FlightClient.connect
  | m_insert t n => void (A2FlightClient.insert t n)
  | m_select q p => void (A2FlightClient.select q p)
  | m_select_streaming q => void (A2FlightClient.select_streaming q)
  | m_update t n => void (A2FlightClient.update t n)
  | m_delete t n => void (A2FlightClient.delete t n)
  | m_close => void A2FlightClient.close
  end.

(** The clients on which [connect] has never completed: a fresh client,
    and what it becomes by any method call, a [connect] only if it raises.
    Other users of the transport may add to the history in between. *)
Inductive never_connected {codec : IpcCodec} (T : transport)
  : list event -> A2FlightClient.t -> Prop :=
| nc_init h cfg :
    never_connected T h (A2FlightClient.__init__ cfg)
| nc_call h self c :
    never_connected T h self ->
    (c = m_connect -> exists e, result (A2FlightClient.connect T h self) = inl e) ->
    never_connected T (h ++ trace (call_method c T h self))
                    (final (call_method c T h self))
| nc_others h self evs :
    never_connected T h self ->
    never_connected T (h ++ evs) self.

Definition not_connected_error : exn :=
  ClientError "Not connected. Call connect() first.".

(** A call is refused when it raises the state error and invokes nothing. *)
Definition refused {S A} (o : outcome S A) : Prop :=
  result o = inl not_connected_error /\ trace o = [].

(** ** A codec to run examples with

    Any injective, decodable encoding of tables satisfies the interface;
    this one writes the bits of a table's code number, one per byte. *)

Global Instance byte_eq_dec : EqDecision byte := Byte.byte_eq_dec.

Global Instance byte_countable : Countable byte :=
  inj_countable Byte.to_N Byte.of_N Byte.of_to_N.

Global Instance pyval_eq_dec : EqDecision pyval.
Proof. solve_decision. Defined.

Definition pyval_to_sum (v : pyval) : unit + bool + Z + string + bytes :=
  match v with
  | PyNone => inl (inl (inl (inl tt)))
  | PyBool b => inl (inl (inl (inr b)))
  | PyInt z => inl (inl (inr z))
  | PyStr s => inl (inr s)
  | PyBytes b => inr b
  end.

Definition pyval_of_sum (x : unit + bool + Z + string + bytes) : pyval :=
  match x with
  | inl (inl (inl (inl _))) => PyNone
  | inl (inl (inl (inr b))) => PyBool b
  | inl (inl (inr z)) => PyInt z
  | inl (inr s) => PyStr s
  | inr b => PyBytes b
  end.

Global Instance pyval_countable : Countable pyval.
Proof.
  refine (inj_countable' pyval_to_sum pyval_of_sum _). by intros [].
Defined.

Global Instance dtype_eq_dec : EqDecision dtype.
Proof. solve_decision. Defined.

Definition dtype_to_nat (d : dtype) : nat :=
  match d with TBool => 0 | TInt64 => 1 | TString => 2 | TBinary => 3 end.

Definition dtype_of_nat (n : nat) : dtype :=
  match n with 0 => TBool | 1 => TInt64 | 2 => TString | _ => TBinary end.

Global Instance dtype_countable : Countable dtype.
Proof.
  refine (inj_countable' dtype_to_nat dtype_of_nat _). by intros [].
Defined.

Global Instance column_eq_dec : EqDecision column.
Proof. solve_decision. Defined.

Global Instance column_countable : Countable column.
Proof.
  refine (inj_countable' (λ c, (col_name c, col_type c, col_cells c))
                         (λ x, Column x.1.1 x.1.2 x.2) _).
  by intros [].
Defined.

Fixpoint bits_of (p : positive) : bytes :=
  match p with
  | xH => []
  | xO p' => x00 :: bits_of p'
  | xI p' => x01 :: bits_of p'
  end.

Fixpoint of_bits (b : bytes) : option positive :=
  match b with
  | [] => Some xH
  | x00 :: b' => xO <$> of_bits b'
  | x01 :: b' => xI <$> of_bits b'
  | _ => None
  end.

Global Instance bits_codec : IpcCodec := {
  ipc_write t := bits_of (encode t);
  ipc_read b :=
    match of_bits b ≫= decode with
    | Some t => inr t
    | None => inl (Exn ArrowError "Invalid IPC stream")
    end
}.

(** ** The action protocol, read from the other side *)



(** The request bytes [update] and [delete] hand to [do_action]. *)
Definition envelope_bytes {codec : IpcCodec} (arrow_table : table) (table_name : string)
  : bytes :=
  ipc_write (Arrow.metadata_table table_name (ipc_write arrow_table)).

(** The result of an action, from the reply to [do_action]. *)
Definition action_result {codec : IpcCodec} (label : string) (r : reply)
  : exn + gmap string pyval :=
  match (result_bytes ← A2FlightClient.read_result_stream r;
         response_table ← ipc_read result_bytes;
         result ← A2FlightClient.extract_result response_table;
         _ ← A2FlightClient.log_complete result;
         inr result
         : exn + gmap string pyval) with
  | inl e => inl (ClientError (label +:+ " failed: " +:+ exn_str e))
  | inr d => inr d
  end.


Definition sample_batch : table :=
  [ Column "id" TInt64 [PyInt 1; PyInt 2; PyInt 3];
    Column "name" TString [PyStr "a"; PyStr "b"; PyStr "c"] ].




(** ** Retries and failures *)

(** No primitive is invoked twice. *)
Definition at_most_once (tr : list event) : Prop :=
  forall p, invocations p tr <= 1.

(** A failed invocation is the last one, and the call raises. *)
Definition fail_fast {S A} (o : outcome S A) : Prop :=
  forall pre ev post,
    trace o = pre ++ ev :: post -> failed ev = true ->
    post = [] /\ exists e, result o = inl e.

Definition no_retry {S A} (o : outcome S A) : Prop :=
  at_most_once (trace o) /\ fail_fast o.

(** The same, but for the [list_actions] probe. *)
Definition fail_fast_but_probe {S A} (o : outcome S A) : Prop :=
  forall pre ev post,
    trace o = pre ++ ev :: post -> failed ev = true ->
    ev_call ev <> list_actions ->
    post = [] /\ exists e, result o = inl e.

(** What follows a failed probe: one handshake when the failure is of the
    unauthenticated/unauthorized class; nothing otherwise, the call
    returning True on the unimplemented-and-authentication class and
    raising on any other failure. *)
Definition probe_policy {S} (o : outcome S bool) : Prop :=
  forall pre r post e,
    trace o = pre ++ Ev list_actions r :: post -> r_err r = Some e ->
    if auth_class e then
      exists ev, post = [ev]
                 /\ prim_of (ev_call ev) = P_authenticate_basic_token
    else
      post = []
      /\ if no_auth_class e then result o = inr true
         else exists e', result o = inl e'.

(** ** The shared client *)

Section SharedClient.
Context {codec : IpcCodec} {rt : PyRuntime}.

(** A call of the module-level API. *)
Inductive api_call :=
| api_ins (arrow_table : table) (table_name : string)
| api_sel (query : string) (params : option (list pyval))
| api_updt (arrow_table : table) (table_name : string)
| api_del (arrow_table : table) (table_name : string)
| api_close.

Definition call_api (fs : FileSystem) (c : api_call) : M module_state unit :=
  match c with
  | api_ins t n => void (a2db_ins fs t n)
  | api_sel q p => void (a2db_sel fs q p)
  | api_updt t n => void (a2db_updt fs t n)
  | api_del t n => void (a2db_del fs t n)
  | api_close => void a2db_close
  end.


(** The shared client, if there is one and it reports connected. *)
Definition live (g : module_state) : option nat :=
  match _global_client g with
  | Some i => if A2FlightClient.is_connected (objects g !!! i) then Some i else None
  | None => None
  end.

(** The module state once a new client has replaced the reference, the
    settings instance being the one its construction leaves. *)
Definition replaced (client : A2FlightClient.t)
    (instance : option a2flight_cl_config.A2FlightClientConfig)
    (g : module_state) : module_state :=
  ModuleState (objects g ++ [client]) (Some (length (objects g))) instance.

(** The call raises the ValueError of the settings: no client is made, the
    reference is as it was, nothing is invoked; the settings instance is
    the one the failed load leaves. *)
Definition settings_refused {A} (error_msg : string)
    (instance : option a2flight_cl_config.A2FlightClientConfig)
    (g : module_state) : outcome module_state A :=
  Outcome (inl (Exn ValueError error_msg))
          (ModuleState (objects g) (_global_client g) instance) [].

(** An API function delegates to a method: on the live shared client as it
    is; otherwise on a new client that has replaced the reference and has
    been connected first, the call raising what [connect] raises.  The new
    client is the one [A2FlightClient()] makes; when that raises, because
    the settings do not validate at their first load, so does the call. *)
Definition delegates {A} (fs : FileSystem) (api : M module_state A)
    (method : M A2FlightClient.t A)
    (T : transport) (h : list event) (g : module_state) : Prop :=
  match live g with
  | Some i => api T h g = on_object i method T h g
  | None =>
      match a2flight_cl_config.new_client fs None (_config_instance g) with
      | (inr client, instance) =>
          let i := length (objects g) in
          api T h g
          = bind (on_object i A2FlightClient.connect) (λ _, on_object i method)
                 T h (replaced client instance g)
      | (inl error_msg, instance) =>
          api T h g = settings_refused error_msg instance g
      end
  end.


End SharedClient.

(** ** Context managers *)






(** A call is turned away from [s]: refused, the state left as it is. *)
Definition turned_away {S A} (s : S) (o : outcome S A) : Prop :=
  refused o /\ final o = s.

(** An outcome raises nothing but exceptions of one class. *)
Definition raises_only {S A} (cls : exn_class) (o : outcome S A) : Prop :=
  forall e, result o = inl e -> exn_cls e = cls.

(** The primitives that carry data; the others make, authenticate or
    close a connection. *)
Definition data_prims : list prim :=
  [P_do_put; P_write_table; P_writer_close; P_do_get; P_do_action].

(** A trace made of data primitives only. *)
Definition data_only (tr : list event) : Prop :=
  Forall (λ ev, prim_of (ev_call ev) ∈ data_prims) tr.

(** A method that keeps the client and invokes data primitives only. *)
Definition quiet {A} (method : M A2FlightClient.t A) : Prop :=
  forall T h self,
    final (method T h self) = self /\ data_only (trace (method T h self)).

(** An outcome keeps the live shared client [i] of [g]: the module state
    is as it was and no handle was built. *)
Definition kept {rt : PyRuntime} {A} (g : module_state) (i : nat)
    (o : outcome module_state A) : Prop :=
  final o = g /\ live (final o) = Some i /\ data_only (trace o)
  /\ invocations P_new (trace o) = 0.

(** An outcome keeps the clients of [g]: none is closed, each is as it
    was, and none is removed. *)
Definition keeps_clients {rt : PyRuntime} {A} (g : module_state)
    (o : outcome module_state A) : Prop :=
  invocations P_close (trace o) = 0
  /\ (forall j, j < length (objects g) ->
        objects (final o) !!! j = objects g !!! j)
  /\ length (objects g) <= length (objects (final o)).




(** ** a2flight_cl_env.py: the generator of the settings file *)

(** A text given by its lines, each closed by a newline. *)
Fixpoint text (lines : list string) : string :=
  match lines with
  | [] => EmptyString
  | line :: lines' => line +:+ PyStr.nl +:+ text lines'
  end.

Module a2flight_cl_env.

(** [generate_client_config(specs)], by the number of CPU cores in
    [specs]. *)
Definition generate_client_config (cpu_cores : Z) : gmap string Z :=
  let connection_pool_size := Z.max 4 (Z.min cpu_cores 8) in
  let max_connections := (connection_pool_size * 2)%Z in
  {[ "CONNECTION_POOL_SIZE" := connection_pool_size;
     "MAX_CONNECTIONS" := max_connections;
     "REQUEST_TIMEOUT" := 300%Z;
     "STREAM_CHUNK_SIZE" := 500000%Z;
     "MAX_MESSAGE_SIZE" := (100 * 1024 * 1024)%Z ]}.

(** The text [content] that [write_client_env_file(config, specs)] writes
    to a2flight_cl.env, by the time stamp [current_time] and the number of
    CPU cores in [specs]; [None] when [config] lacks a key (KeyError). *)
Definition content (current_time : string) (cpu_cores : Z)
    (config : gmap string Z) : option string :=
  connection_pool_size ← config !! "CONNECTION_POOL_SIZE";
  max_connections ← config !! "MAX_CONNECTIONS";
  request_timeout ← config !! "REQUEST_TIMEOUT";
  stream_chunk_size ← config !! "STREAM_CHUNK_SIZE";
  max_message_size ← config !! "MAX_MESSAGE_SIZE";
  Some (text
    [ "# ============================================================================";
      "# A2DB Arrow Flight Client Configuration";
      "# ============================================================================";
      "# Generated: " +:+ current_time;
      "# CPU Cores: " +:+ pretty cpu_cores;
      "# Purpose: Client-side configuration for Arrow Flight connections";
      "# ============================================================================";
      "";
      "# ============================================================================";
      "# CLIENT IDENTITY";
      "# ============================================================================";
      "A2FLIGHT_CLIENT_NAME=etl";
      "A2FLIGHT_CLIENT_API_KEY=<to be entered>";
      "";
      "# ============================================================================";
      "# SERVER CONNECTION";
      "# ============================================================================";
      "A2FLIGHT_SERVER_HOST=localhost";
      "A2FLIGHT_SERVER_PORT=50054";
      "A2FLIGHT_CONNECTION_PROTOCOL=grpc";
      "";
      "# ============================================================================";
      "# TLS CONFIGURATION";
      "# ============================================================================";
      "A2FLIGHT_CLIENT_ENABLE_TLS=false";
      "A2FLIGHT_CLIENT_VERIFY_TLS=true";
      "";
      "# ============================================================================";
      "# CONNECTION POOLING";
      "# ============================================================================";
      "A2FLIGHT_CLIENT_CONNECTION_POOL_SIZE=" +:+ pretty connection_pool_size;
      "A2FLIGHT_CLIENT_MAX_CONNECTIONS=" +:+ pretty max_connections;
      "A2FLIGHT_CLIENT_CONNECTION_TIMEOUT=30";
      "A2FLIGHT_CLIENT_IDLE_TIMEOUT=300";
      "";
      "A2FLIGHT_CLIENT_KEEPALIVE_ENABLED=true";
      "A2FLIGHT_CLIENT_KEEPALIVE_INTERVAL=30";
      "A2FLIGHT_CLIENT_KEEPALIVE_TIMEOUT=60";
      "";
      "# ============================================================================";
      "# REQUEST CONFIGURATION";
      "# ============================================================================";
      "A2FLIGHT_CLIENT_REQUEST_TIMEOUT=" +:+ pretty request_timeout;
      "A2FLIGHT_CLIENT_MAX_RETRIES=3";
      "A2FLIGHT_CLIENT_RETRY_DELAY=1";
      "A2FLIGHT_CLIENT_RETRY_BACKOFF=2.0";
      "";
      "# ============================================================================";
      "# DATA TRANSFER SETTINGS";
      "# ============================================================================";
      "A2FLIGHT_CLIENT_STREAM_CHUNK_SIZE=" +:+ pretty stream_chunk_size;
      "A2FLIGHT_CLIENT_ENABLE_COMPRESSION=false";
      "";
      "# FIXED: Valid value between 1MB-1GB (100MB = 104857600 bytes)";
      "# Production environments should use explicit size limits";
      "A2FLIGHT_CLIENT_MAX_MESSAGE_SIZE=" +:+ pretty max_message_size;
      "";
      "# ============================================================================";
      "# MONITORING AND LOGGING";
      "# ============================================================================";
      "A2FLIGHT_CLIENT_ENABLE_REQUEST_LOGGING=true";
      "A2FLIGHT_CLIENT_LOG_LEVEL=INFO";
      "A2FLIGHT_CLIENT_LOG_API_KEYS=false";
      "";
      "A2FLIGHT_CLIENT_ENABLE_METRICS=true";
      "A2FLIGHT_CLIENT_METRICS_INTERVAL=60";
      "";
      "# ============================================================================";
      "# ERROR HANDLING";
      "# ============================================================================";
      "A2FLIGHT_CLIENT_CIRCUIT_BREAKER_ENABLED=true";
      "A2FLIGHT_CLIENT_CIRCUIT_BREAKER_FAILURE_THRESHOLD=5";
      "A2FLIGHT_CLIENT_CIRCUIT_BREAKER_TIMEOUT=60";
      "";
      "A2FLIGHT_CLIENT_FALLBACK_TO_DIRECT_DB=false";
      "";
      "# ============================================================================";
      "# DEPLOYMENT METADATA";
      "# ============================================================================";
      "A2FLIGHT_CLIENT_ENVIRONMENT=production";
      "A2FLIGHT_CLIENT_VERSION=1.0.0";
      "A2FLIGHT_CLIENT_SERVICE_NAME=a2db-flight-client";
      "";
      "# ============================================================================";
      "# OPTIONAL RESTRICTIONS";
      "# ============================================================================";
      "A2FLIGHT_CLIENT_ALLOWED_SERVER_IPS=";
      "A2FLIGHT_CLIENT_ALLOWED_OPERATIONS=";
      "";
      "# ============================================================================";
      "# CONFIGURATION NOTES";
      "# ============================================================================";
      "# 1. REQUIRED: Set A2FLIGHT_CLIENT_API_KEY from server administrator";
      "# 2. REQUIRED: Set A2FLIGHT_CLIENT_NAME to match server configuration";
      "# 3. Update A2FLIGHT_SERVER_HOST and PORT for your deployment";
      "# 4. Configure TLS settings if server requires encryption";
      "# 5. Adjust connection pool size based on workload patterns";
      "# 6. Enable compression if network bandwidth is a constraint";
      "# 7. Review retry and timeout settings for your use case";
      "# 8. Set LOG_API_KEYS to false in production environments";
      "# 9. Max message size must be between 1MB-1GB (validated at startup)";
      "# 10. Client config is separate from server's a2cl_config.env";
      "# ============================================================================" ]).

End a2flight_cl_env.

(** ** Reading a text file

    [for line in f] on a file opened in text mode: the lines with their
    line ends, every line end (newline, carriage return, or the two in a
    row) read as one newline. *)
Fixpoint text_lines (s : string) : list string :=
  match s with
  | EmptyString => []
  | String c s' =>
      if decide (c = "010"%char) then PyStr.nl :: text_lines s'
      else if decide (c = "013"%char) then
        match s' with
        | String "010"%char s'' => PyStr.nl :: text_lines s''
        | _ => PyStr.nl :: text_lines s'
        end
      else match text_lines s' with
           | line :: lines => String c line :: lines
           | [] => [String c EmptyString]
           end
  end.

(** ** Vocabulary of the properties of the configuration *)

Section ConfigVocabulary.
Import a2flight_cl_config.
Context {rt : PyRuntime}.

(** A configuration with another host and protocol. *)
Definition with_endpoint (host protocol : string) (c : A2FlightClientConfig)
  : A2FlightClientConfig :=
  Dataclass (client_name c) (api_key c) host (server_port c) protocol
    (connection_pool_size c) (max_connections c) (connection_timeout c)
    (idle_timeout c) (keepalive_enabled c) (keepalive_interval c)
    (keepalive_timeout c) (request_timeout c) (max_retries c) (retry_delay c)
    (retry_backoff c) (stream_chunk_size c) (enable_compression c)
    (max_message_size c) (enable_request_logging c) (log_level c)
    (log_api_keys c) (enable_metrics c) (metrics_interval c)
    (circuit_breaker_enabled c) (circuit_breaker_failure_threshold c)
    (circuit_breaker_timeout c) (fallback_to_direct_db c) (environment c)
    (version c) (service_name c) (allowed_server_ips c) (allowed_operations c).

(** A configuration with other pool sizes, request timeout, chunk size and
    message size. *)
Definition with_sizing (pool_size connections timeout chunk_size message_size : Z)
    (c : A2FlightClientConfig) : A2FlightClientConfig :=
  Dataclass (client_name c) (api_key c) (server_host c) (server_port c)
    (connection_protocol c) pool_size connections (connection_timeout c)
    (idle_timeout c) (keepalive_enabled c) (keepalive_interval c)
    (keepalive_timeout c) timeout (max_retries c) (retry_delay c)
    (retry_backoff c) chunk_size (enable_compression c)
    message_size (enable_request_logging c) (log_level c)
    (log_api_keys c) (enable_metrics c) (metrics_interval c)
    (circuit_breaker_enabled c) (circuit_breaker_failure_threshold c)
    (circuit_breaker_timeout c) (fallback_to_direct_db c) (environment c)
    (version c) (service_name c) (allowed_server_ips c) (allowed_operations c).

(** The sizing that a generated dict gives, a missing entry leaving the
    field as it is. *)
Definition with_generated (generated : gmap string Z) (c : A2FlightClientConfig)
  : A2FlightClientConfig :=
  with_sizing
    (default (connection_pool_size c) (generated !! "CONNECTION_POOL_SIZE"))
    (default (max_connections c) (generated !! "MAX_CONNECTIONS"))
    (default (request_timeout c) (generated !! "REQUEST_TIMEOUT"))
    (default (stream_chunk_size c) (generated !! "STREAM_CHUNK_SIZE"))
    (default (max_message_size c) (generated !! "MAX_MESSAGE_SIZE"))
    c.


(** A string that [strip] leaves as it is, with no quote at its ends. *)
Definition plain (s : string) : Prop :=
  PyText.strip s = s /\ PyText.strip_char "034" s = s /\ PyText.strip_char "'" s = s.

End ConfigVocabulary.

(** ** A runtime to run examples with: numbers in hundredths stand for the
    floating-point numbers, [int()] reads plain digits. *)

Fixpoint digits_value (acc : Z) (s : string) : option Z :=
  match s with
  | EmptyString => Some acc
  | String c s' =>
      let n := nat_of_ascii c in
      if (48 <=? n) && (n <=? 57)
      then digits_value (acc * 10 + Z.of_nat (n - 48)) s'
      else None
  end.

(** A number written with a point and one or two decimals, in hundredths. *)
Definition hundredths (s : string) : option Z :=
  match PyText.split_once "." s with
  | Some (whole, decimals) =>
      if PyStr.truthy whole && PyStr.truthy decimals
         && (String.length decimals <=? 2)
      then
        w ← digits_value 0 whole;
        d ← digits_value 0 (PyStr.take 2 (decimals +:+ "00"));
        Some (w * 100 + d)%Z
      else None
  | None => None
  end.

Global Instance example_runtime : PyRuntime := {
  pyfloat := Z;
  float_1_0 := 100;
  float_2_0 := 200;
  float_10_0 := 1000;
  float_le := Z.leb;
  float_str := pretty;
  py_int s := if PyStr.truthy s then digits_value 0 s else None;
  py_float := hundredths;
  valid_ops_iter := ["SELECT"; "INSERT"; "UPDATE"; "DELETE"]
}.

(** A machine with no settings file. *)
Definition no_files : FileSystem :=
  {| getenv_config_path := None;
     path_exists := λ _, false;
     read_lines := λ _, None |}.

(** A machine with one settings file in the working directory. *)
Definition one_file (lines : list string) : FileSystem :=
  {| getenv_config_path := None;
     path_exists := λ path, bool_decide (path = "a2flight_cl.env");
     read_lines := λ path,
       if bool_decide (path = "a2flight_cl.env") then Some lines else None |}.

(** The settings of the examples: the defaults with an API key, read from
    a one-line file. *)
Definition example_lines : list string :=
  [ "# client settings" +:+ PyStr.nl;
    "A2FLIGHT_CLIENT_API_KEY=a2db_key_5f2c9e7a41b8d3c6f0a1b2c3d4e5f6a7" +:+ PyStr.nl ].

Definition example_settings : a2flight_cl_config.A2FlightClientConfig :=
  a2flight_cl_config.load_from_env (one_file example_lines) None.

(** The text of the API key error of [validate_config]. *)
Definition api_key_error : string :=
  "API key must be obtained from server administrator. "
  +:+ "Update a2flight_cl.env with real API key.".

(** A text with no line end in it. *)
Definition one_line (s : string) : bool :=
  PyText.all_chars
    (λ c, negb (bool_decide (c = "010"%char) || bool_decide (c = "013"%char))) s.

(** A line of a settings file that assigns nothing: blank, a comment, or
    without an equals sign. *)
Definition skipped (line : string) : bool :=
  let line := PyText.strip line in
  negb (PyStr.truthy line) || PyStr.startswith "#" line
  || negb (PyStr.contains "=" line).

(** What the properties use of the arithmetic of the interpreter:
    [int(str(n)) == n] for a natural number, [float('2.0') == 2.0] and
    [1.0 <= 2.0 <= 10.0]. *)
Class PyRuntimeLaws (rt : PyRuntime) : Prop := {
  int_of_str : forall n : Z, (0 <= n)%Z -> py_int (pretty n) = Some n;
  float_of_2_0 : py_float "2.0" = Some float_2_0;
  float_1_le_2 : float_le float_1_0 float_2_0 = true;
  float_2_le_10 : float_le float_2_0 float_10_0 = true
}.

(** An item of a comma-separated list as [get_list] returns it: not empty,
    no blank at its ends, no comma in it. *)
Definition list_item (item : string) : Prop :=
  PyText.strip item = item /\ PyStr.truthy item = true
  /\ PyStr.contains "," item = false.

(** The settings that the generated file stands for, by the API key
    entered in it and the size of the connection pool. *)
Definition generated_settings {rt : PyRuntime} (key : string) (pool_size : Z)
  : a2flight_cl_config.A2FlightClientConfig :=
  a2flight_cl_config.Dataclass
    "etl" key "localhost" 50054 "grpc"
    pool_size (pool_size * 2) 30 300 true 30 60
    300 3 1 float_2_0
    500000 false (100 * 1024 * 1024)
    true "INFO" false true 60
    true 5 60 false
    "production" "1.0.0" "a2db-flight-client"
    [] ["SELECT"; "INSERT"; "UPDATE"; "DELETE"].

(** Entering the API key in a settings file: the line of the placeholder
    becomes the line of the key. *)
Definition enter_api_key_line (key line : string) : string :=
  if bool_decide (line = "A2FLIGHT_CLIENT_API_KEY=<to be entered>" +:+ PyStr.nl)
  then "A2FLIGHT_CLIENT_API_KEY=" +:+ key +:+ PyStr.nl
  else line.

Definition enter_api_key (key : string) (lines : list string) : list string :=
  enter_api_key_line key <$> lines.

(** * Properties *)

(** ** Strings *)

Section PyStrFacts.
Import PyStr.

Lemma startswith_app (p s : string) : startswith p (p +:+ s) = true.
Proof.
  induction p as [|a p IH]; simpl; [done|].
  by rewrite decide_True.
Qed.

Lemma contains_here (n s : string) : contains n (n +:+ s) = true.
Proof.
  destruct n as [|a n]; destruct s; simpl; try done;
    rewrite ?decide_True by done; by rewrite ?startswith_app.
Qed.






End PyStrFacts.

(** ** Running computations *)

Ltac unfold_py :=
  cbv [A2FlightClient.connect A2FlightClient._authenticate
       A2FlightClient._ensure_connected A2FlightClient.probe_handler
       A2FlightClient.insert A2FlightClient.select
       A2FlightClient.select_streaming A2FlightClient.update
       A2FlightClient.delete A2FlightClient.close
       A2FlightClient.set_client A2FlightClient.set_connected
       A2FlightClient.read_all A2FlightClient.read_result_stream
       bind try_except ret raise get put invoke invoke_ of_reply lift].

(** Case on the reply of the next invocation. *)
Ltac next_reply :=
  rewrite ?app_nil_r;
  match goal with
  | |- context [match r_err (?T ?h ?c) with _ => _ end] =>
      let E := fresh "Hreply" in
      destruct (r_err (T h c)) eqn:E; simpl
  end.

(** Membership of an event in one of the traces of [connect]. *)
Ltac in_trace H :=
  unfold ev_auth, ev_probe, ev_new in H; simpl in H;
  rewrite ?elem_of_cons, ?elem_of_nil in H;
  destruct_or?; simplify_eq/=; try done.

(** Split a trace of known length at every position. *)
Ltac split_trace Htr :=
  match type of Htr with
  | _ = ?pre ++ _ :: _ =>
      destruct pre as [|? [|? [|? [|? pre]]]]; simplify_eq/=
  end.

(** Use the replies already cased on in a failure hypothesis. *)
Ltac use_replies Hf :=
  unfold failed in Hf; simpl in Hf;
  repeat match goal with
         | H : r_err ?r = _ |- _ => rewrite H in Hf
         end.

Ltac solve_once :=
  let p := fresh "p" in
  intros p; destruct p; unfold invocations; simpl; lia.

Ltac solve_fail_fast :=
  let Htr := fresh "Htr" in
  let Hf := fresh "Hf" in
  intros ? ? ? Htr Hf; simpl in Htr; split_trace Htr;
  use_replies Hf; try done; eauto.

(** ** The example codec is a codec *)

Lemma of_bits_of (p : positive) : of_bits (bits_of p) = Some p.
Proof. induction p as [p IH|p IH|]; simpl; by rewrite ?IH. Qed.

Global Instance bits_codec_laws : IpcCodecLaws bits_codec.
Proof.
  constructor. intros t. simpl. rewrite of_bits_of. simpl.
  by rewrite decode_encode.
Qed.

(** ** Authentication failures (C1) *)

Section Authenticate.
Import PyStr A2FlightClient.

(** [_authenticate] invokes [authenticate_basic_token] once, with the
    configured identity and credential, and nothing else; on a client
    that holds no handle it invokes nothing. *)
Lemma authenticate_trace T h self :
  trace (_authenticate T h self) =
    match _client self with
    | Some _ =>
        [Ev (authenticate_basic_token (client_name (config self))
                                      (api_key (config self)))
            (T h (authenticate_basic_token (client_name (config self))
                                           (api_key (config self))))]
    | None => []
    end.
Proof. unfold_py. destruct (_client self); simpl; [next_reply; done|done]. Qed.


Lemma authenticate_final T h self : final (_authenticate T h self) = self.
Proof. unfold_py. destruct (_client self); simpl; [by next_reply|done]. Qed.




(** On a client that holds no handle the handshake is not reached: the
    interpreter's error is wrapped as an unclassified failure, and nothing
    is invoked. *)
Lemma authenticate_without_handle T h cfg :
  _authenticate T h (__init__ cfg)
  = Outcome (inl (ClientError (auth_failed_msg no_handle_error)))
            (__init__ cfg) [].
Proof. reflexivity. Qed.

End Authenticate.

(** ** connect() *)

Section Connect.
Import PyStr A2FlightClient.

Lemma credential_configured_iff cfg :
  credential_configured cfg = false <->
  api_key cfg = "" \/ api_key cfg = "<to be entered>".
Proof.
  unfold credential_configured. destruct (api_key cfg) as [|a k] eqn:Hk; simpl.
  - naive_solver.
  - rewrite bool_decide_eq_false. split.
    + intros Hn. right. by destruct (decide (String a k = "<to be entered>")).
    + intros [?|?]; [done|]. naive_solver.
Qed.

(** What [connect] does, case by case. *)
Lemma connect_cases T h self :
  let cfg := config self in
  connect T h self =
    match r_err (ev_reply (ev_new T h cfg)) with
    | Some e => Outcome (inl (connect_handler cfg e)) self [ev_new T h cfg]
    | None =>
        if credential_configured cfg then
          match r_err (ev_reply (ev_probe T h cfg)) with
          | None =>
              Outcome (inr true) (connected self)
                      [ev_new T h cfg; ev_probe T h cfg]
          | Some e =>
              if auth_class e then
                match r_err (ev_reply (ev_auth T h cfg)) with
                | None =>
                    Outcome (inr true) (connected self)
                            [ev_new T h cfg; ev_probe T h cfg; ev_auth T h cfg]
                | Some e' =>
                    Outcome
                      (inl (connect_handler cfg (_authenticate_handler cfg e')))
                      (opened self)
                      [ev_new T h cfg; ev_probe T h cfg; ev_auth T h cfg]
                end
              else if no_auth_class e then
                Outcome (inr true) (connected self)
                        [ev_new T h cfg; ev_probe T h cfg]
              else
                Outcome (inl (connect_handler cfg e)) (opened self)
                        [ev_new T h cfg; ev_probe T h cfg]
          end
        else Outcome (inr true) (connected self) [ev_new T h cfg]
    end.
Proof.
  intros cfg. unfold ev_auth, ev_probe, ev_new, auth_class, no_auth_class,
    connected, opened.
  subst cfg. unfold_py. simpl. next_reply; [done|].
  destruct (credential_configured (config self)); simpl; [|done].
  rewrite <- ?app_assoc; simpl.
  next_reply; [|done].
  match goal with |- context [if ?b then _ else _] => destruct b end; simpl.
  - rewrite <- ?app_assoc; simpl. next_reply; done.
  - match goal with |- context [if ?b then _ else _] => destruct b end; done.
Qed.

(** C2: with a credential configured, when the [list_actions] probe of
    [connect] fails with an unauthenticated/unauthorized-class error, the
    handshake is invoked exactly once; if it succeeds, [connect] returns
    True and the client is connected. *)
Theorem connect_authenticates_once T h self r e :
  credential_configured (config self) = true ->
  Ev list_actions r ∈ trace (connect T h self) ->
  r_err r = Some e ->
  auth_class e = true ->
  invocations P_authenticate_basic_token (trace (connect T h self)) = 1
  /\ (forall ev,
        ev ∈ trace (connect T h self) ->
        prim_of (ev_call ev) = P_authenticate_basic_token ->
        failed ev = false ->
        result (connect T h self) = inr true
        /\ is_connected (final (connect T h self)) = true).
Proof.
  intros Hcred Hin Herr Hcls. rewrite connect_cases in *.
  unfold ev_auth, ev_probe, ev_new in *. simpl in *.
  destruct (r_err (T h _)) eqn:Hnew; simpl in *; [in_trace Hin|].
  rewrite Hcred in *.
  destruct (r_err (T (h ++ _) list_actions)) as [e1|] eqn:Hprobe; simpl in *;
    [|in_trace Hin; congruence].
  assert (e1 = e) as ->.
  { destruct (auth_class e1); [|destruct (no_auth_class e1)];
      try destruct (r_err (T _ (authenticate_basic_token _ _)));
      in_trace Hin; congruence. }
  rewrite Hcls in *.
  destruct (r_err (T _ (authenticate_basic_token _ _))) eqn:Hauth; simpl in *.
  - split; [done|]. intros ev Hev Hp Hf. unfold failed in Hf.
    in_trace Hev. by rewrite Hauth in Hf.
  - split; [done|]. intros ev Hev Hp Hf. done.
Qed.

Lemma connect_authenticates_once_witness :
  let T := secured_server "etl" (api_key demo_config) in
  let o := connect T [] (__init__ demo_config) in
  invocations P_authenticate_basic_token (trace o) = 1
  /\ result o = inr true /\ is_connected (final o) = true.
Proof.
  intros T o.
  pose (r := err_reply (Exn FlightError
               "Flight returned unauthenticated error, with message: no token")).
  destruct (connect_authenticates_once T [] (__init__ demo_config) r
              (Exn FlightError
                 "Flight returned unauthenticated error, with message: no token"))
    as [Hone Hok].
  - vm_compute; reflexivity.
  - vm_compute. apply list_elem_of_further, list_elem_of_here.
  - reflexivity.
  - vm_compute; reflexivity.
  - split; [exact Hone|].
    apply (Hok (Ev (authenticate_basic_token "etl" (api_key demo_config)) ok_reply)).
    + vm_compute. do 2 apply list_elem_of_further. apply list_elem_of_here.
    + reflexivity.
    + reflexivity.
Defined.

(** C3: with no credential configured (the key is empty or the sentinel
    placeholder), [connect] issues neither the probe nor the handshake,
    and, the handle once made, returns True with the client connected. *)
Theorem connect_without_credential T h self :
  api_key (config self) = "" \/ api_key (config self) = "<to be entered>" ->
  invocations P_list_actions (trace (connect T h self)) = 0
  /\ invocations P_authenticate_basic_token (trace (connect T h self)) = 0
  /\ (r_err (T h (FlightClient_new (server_location (config self)))) = None ->
      result (connect T h self) = inr true
      /\ is_connected (final (connect T h self)) = true).
Proof.
  intros Hkey%credential_configured_iff. rewrite connect_cases. simpl.
  rewrite Hkey.
  destruct (r_err (T h _)) eqn:Hnew; simpl; repeat split; done.
Qed.

Lemma connect_without_credential_witness :
  let o := connect unreachable_server [] (__init__ unset_config) in
  invocations P_list_actions (trace o) = 0
  /\ invocations P_authenticate_basic_token (trace o) = 0
  /\ result o = inr true /\ is_connected (final o) = true.
Proof.
  intros o.
  destruct (connect_without_credential unreachable_server [] (__init__ unset_config))
    as (H1 & H2 & H3).
  - right; reflexivity.
  - split; [exact H1|]. split; [exact H2|]. apply H3. reflexivity.
Defined.




(** C10: [connect] never returns False: a returned value is True, and the
    client is then connected.  With the key empty or the sentinel
    placeholder the only invocation is the local construction of the
    handle, so that, the handle once made, [connect] returns True and marks
    the client connected whatever a round-trip to the server would give. *)
Theorem connect_never_returns_false T h self :
  let o := connect T h self in
  result o <> inr false
  /\ (result o = inr true -> is_connected (final o) = true)
  /\ (api_key (config self) = "" \/ api_key (config self) = "<to be entered>" ->
      (forall ev, ev ∈ trace o ->
                  ev_call ev = FlightClient_new (server_location (config self)))
      /\ (r_err (T h (FlightClient_new (server_location (config self)))) = None ->
          result o = inr true /\ is_connected (final o) = true)).
Proof.
  intros o. subst o. rewrite connect_cases. simpl.
  split; [|split].
  - repeat (case_match; simpl; try done).
  - repeat (case_match; simpl; try done).
  - intros Hkey%credential_configured_iff. rewrite Hkey.
    destruct (r_err (T h _)) eqn:Hnew; simpl; (split; [|done]);
      intros ev Hev; by in_trace Hev.
Qed.

Lemma connect_never_returns_false_witness :
  let o := connect unreachable_server [] (__init__ unset_config) in
  result o = inr true /\ is_connected (final o) = true
  /\ forall ev, ev ∈ trace o -> ev_call ev = FlightClient_new "grpc://localhost:8815".
Proof.
  intros o.
  destruct (connect_never_returns_false unreachable_server [] (__init__ unset_config))
    as (_ & _ & Hkey).
  destruct Hkey as [Hlocal Hret]; [right; reflexivity|].
  destruct Hret as [Hr Hc]; [reflexivity|].
  split; [exact Hr|]. split; [exact Hc|]. exact Hlocal.
Defined.

End Connect.

(** ** The connected-state guard (C5) *)

Section Guard.
Import A2FlightClient.
Context {codec : IpcCodec}.

Lemma void_final {S A} (m : M S A) T h s : final (void m T h s) = final (m T h s).
Proof. unfold void, bind, ret. by destruct (m T h s) as [[?|?] ? ?]. Qed.

Lemma void_trace {S A} (m : M S A) T h s : trace (void m T h s) = trace (m T h s).
Proof.
  unfold void, bind, ret. destruct (m T h s) as [[?|?] ? ?]; simpl; [done|].
  by rewrite app_nil_r.
Qed.

Lemma ensure_connected_fails T h self :
  is_connected self = false ->
  _ensure_connected T h self = Outcome (inl not_connected_error) self [].
Proof.
  unfold is_connected. intros Hc. unfold_py.
  destruct (_connected self); simpl in *; [|done].
  apply bool_decide_eq_false in Hc.
  rewrite bool_decide_eq_true_2; [done|].
  by destruct (_client self); [destruct Hc|].
Qed.

Lemma ensure_connected_raises T h self :
  _connected self = false ->
  _ensure_connected T h self = Outcome (inl not_connected_error) self [].
Proof. intros Hc. apply ensure_connected_fails. unfold is_connected. by rewrite Hc. Qed.

Lemma ensure_connected_passes T h self :
  is_connected self = true ->
  _ensure_connected T h self = Outcome (inr tt) self [].
Proof.
  unfold is_connected. intros [Hc Hh%bool_decide_eq_true]%andb_true_iff.
  unfold_py. rewrite Hc. simpl. by rewrite bool_decide_eq_false_2.
Qed.

(** A guarded method, on a client that is not connected. *)
Lemma guarded_raises {A} (body : M t A) T h self :
  _connected self = false ->
  bind _ensure_connected (λ _, body) T h self
  = Outcome (inl not_connected_error) self [].
Proof. intros Hc. unfold bind. by rewrite ensure_connected_raises. Qed.

Lemma guarded_fails {A} (body : M t A) T h self :
  is_connected self = false ->
  bind _ensure_connected (λ _, body) T h self
  = Outcome (inl not_connected_error) self [].
Proof. intros Hc. unfold bind. by rewrite ensure_connected_fails. Qed.

Lemma guarded_passes {A} (body : M t A) T h self :
  is_connected self = true ->
  bind _ensure_connected (λ _, body) T h self = body T h self.
Proof.
  intros Hc. unfold bind. rewrite ensure_connected_passes by done.
  rewrite app_nil_r. by destruct (body T h self).
Qed.

(** No method but [connect] sets the connected flag, and [connect] sets it
    only when it returns. *)
Lemma connect_raise_keeps_flag T h self e :
  result (connect T h self) = inl e ->
  _connected (final (connect T h self)) = _connected self.
Proof.
  rewrite connect_cases. simpl.
  repeat (case_match; simpl; try done).
Qed.

Lemma close_clears_flag T h self :
  _connected self = false -> _connected (final (close T h self)) = false.
Proof.
  intros Hc. unfold_py. destruct (_client self); simpl; [|done].
  by next_reply.
Qed.

Lemma never_connected_flag T h self :
  never_connected T h self -> _connected self = false.
Proof.
  induction 1 as [h cfg|h self c _ IH Hconn|h self evs _ IH]; [done| |done].
  destruct c; simpl; rewrite void_final.
  - destruct Hconn as [e He]; [done|].
    by rewrite (connect_raise_keeps_flag _ _ _ _ He).
  - unfold insert. by rewrite guarded_raises.
  - unfold select. by rewrite guarded_raises.
  - unfold select_streaming. by rewrite guarded_raises.
  - unfold update. by rewrite guarded_raises.
  - unfold delete. by rewrite guarded_raises.
  - by apply close_clears_flag.
Qed.

(** C5: on a client on which [connect] has never completed, every CRUD
    call raises the state error 'Not connected. Call connect() first.'
    and invokes no transport primitive. *)
Theorem crud_requires_connect T h self :
  never_connected T h self ->
  forall arrow_table table_name query params,
    refused (insert arrow_table table_name T h self)
    /\ refused (select query params T h self)
    /\ refused (select_streaming query T h self)
    /\ refused (update arrow_table table_name T h self)
    /\ refused (delete arrow_table table_name T h self).
Proof.
  intros Hc%never_connected_flag arrow_table table_name query params.
  unfold refused, insert, select, select_streaming, update, delete.
  by rewrite !guarded_raises.
Qed.

End Guard.

Lemma connect_raises_on_boom :
  result (A2FlightClient.connect
            (probe_fails (Exn FlightError
               "Flight returned internal error, with message: boom"))
            [] (A2FlightClient.__init__ demo_config))
  = inl (ClientError
      "Connection failed: Flight returned internal error, with message: boom").
Proof. vm_compute. reflexivity. Qed.

Lemma crud_requires_connect_witness :
  let e := Exn FlightError "Flight returned internal error, with message: boom" in
  let T := probe_fails e in
  let o := call_method m_connect T [] (A2FlightClient.__init__ demo_config) in
  let h := [] ++ trace o in
  refused (A2FlightClient.insert sample_batch "t" T h (final o))
  /\ refused (A2FlightClient.update sample_batch "t" T h (final o)).
Proof.
  intros e T o h.
  pose proof (nc_call T [] (A2FlightClient.__init__ demo_config) m_connect
                (nc_init T [] demo_config)
                (λ _, ex_intro _ _ connect_raises_on_boom)) as Hnc.
  destruct (crud_requires_connect T h (final o) Hnc sample_batch "t" "SELECT 1" None)
    as (Hins & _ & _ & Hupd & _).
  split; [exact Hins|exact Hupd].
Defined.

(** ** UPDATE and DELETE (C6, C7) *)

Section ActionProtocol.
Import A2FlightClient.
Context {codec : IpcCodec}.

(** What [update] and [delete] do on a connected client: one [do_action]
    carrying the envelope, and the result read from its reply. *)
Lemma update_run T h self arrow_table table_name :
  is_connected self = true ->
  let c := do_action "update" (envelope_bytes arrow_table table_name) in
  update arrow_table table_name T h self
  = Outcome (action_result "UPDATE" (T h c)) self [Ev c (T h c)].
Proof.
  intros Hc c. unfold update. rewrite guarded_passes by done.
  subst c. unfold action_result, envelope_bytes.
  unfold_py. simpl.
  destruct (r_err (T h _)); simpl; [done|].
  destruct (ipc_read _); simpl; [done|].
  destruct (extract_result _) as [?|res]; simpl; [done|].
  by destruct (log_complete res).
Qed.

Lemma delete_run T h self arrow_table table_name :
  is_connected self = true ->
  let c := do_action "delete" (envelope_bytes arrow_table table_name) in
  delete arrow_table table_name T h self
  = Outcome (action_result "DELETE" (T h c)) self [Ev c (T h c)].
Proof.
  intros Hc c. unfold delete. rewrite guarded_passes by done.
  subst c. unfold action_result, envelope_bytes.
  unfold_py. simpl.
  destruct (r_err (T h _)); simpl; [done|].
  destruct (ipc_read _); simpl; [done|].
  destruct (extract_result _) as [?|res]; simpl; [done|].
  by destruct (log_complete res).
Qed.







End ActionProtocol.

Section ActionWitnesses.
Import A2FlightClient.






End ActionWitnesses.

(** ** No retries (C9) *)

Section NoRetries.
Import A2FlightClient.
Context {codec : IpcCodec}.

(** What [insert] does on a connected client. *)
Lemma insert_run T h self arrow_table table_name :
  is_connected self = true ->
  let c1 := do_put (utf8_encode table_name) (Arrow.schema arrow_table) in
  let e1 := Ev c1 (T h c1) in
  let e2 := Ev (write_table arrow_table) (T (h ++ [e1]) (write_table arrow_table)) in
  let e3 := Ev writer_close (T (h ++ [e1; e2]) writer_close) in
  insert arrow_table table_name T h self =
    match r_err (ev_reply e1) with
    | Some e => Outcome (inl (insert_handler (config self) e)) self [e1]
    | None =>
        match r_err (ev_reply e2) with
        | Some e => Outcome (inl (insert_handler (config self) e)) self [e1; e2]
        | None =>
            match r_err (ev_reply e3) with
            | Some e =>
                Outcome (inl (insert_handler (config self) e)) self [e1; e2; e3]
            | None =>
                Outcome
                  (inr ({[ "success" := PyBool true;
                           "rows_written" :=
                             PyInt (Z.of_nat (Arrow.num_rows arrow_table));
                           "method_used" := PyStr "flight" ]}
                        : gmap string pyval))
                  self [e1; e2; e3]
            end
        end
    end.
Proof.
  intros Hc c1 e1 e2 e3. unfold insert. rewrite guarded_passes by done.
  subst c1 e1 e2 e3. unfold_py. simpl.
  next_reply; [done|]. rewrite <- ?app_assoc; simpl.
  next_reply; [done|]. rewrite <- ?app_assoc; simpl.
  next_reply; done.
Qed.

Lemma select_run T h self query params :
  is_connected self = true ->
  let c := do_get (utf8_encode query) in
  select query params T h self
  = Outcome (match read_all (T h c) with
             | inl e => inl (ClientError ("SELECT failed: " +:+ exn_str e))
             | inr tbl => inr tbl
             end) self [Ev c (T h c)].
Proof.
  intros Hc c. unfold select. rewrite guarded_passes by done.
  subst c. unfold_py. simpl. by destruct (r_err (T h _)).
Qed.

Lemma select_streaming_run T h self query :
  is_connected self = true ->
  let c := do_get (utf8_encode query) in
  select_streaming query T h self
  = Outcome (match r_err (T h c) with
             | Some e => inl (ClientError ("SELECT streaming failed: " +:+ exn_str e))
             | None => inr (r_batches (T h c))
             end) self [Ev c (T h c)].
Proof.
  intros Hc c. unfold select_streaming. rewrite guarded_passes by done.
  subst c. unfold_py. simpl. by destruct (r_err (T h _)).
Qed.

Lemma at_most_once_nil : at_most_once [].
Proof. intros p. simpl. unfold invocations. simpl. lia. Qed.

Lemma fail_fast_nil {S A} (o : outcome S A) : trace o = [] -> fail_fast o.
Proof. intros Ho pre ev post Htr. rewrite Ho in Htr. by destruct pre. Qed.

Lemma no_retry_refused {A} (o : outcome t A) : refused o -> no_retry o.
Proof.
  intros [_ Htr]. split; [rewrite Htr; apply at_most_once_nil|].
  by apply fail_fast_nil.
Qed.

Lemma action_result_failed label r e :
  r_err r = Some e -> exists e', action_result label r = inl e'.
Proof.
  intros He. unfold action_result, read_result_stream. rewrite He. by eexists.
Qed.

Lemma no_retry_insert T h self arrow_table table_name :
  no_retry (insert arrow_table table_name T h self).
Proof.
  destruct (is_connected self) eqn:Hc.
  - rewrite insert_run by done. simpl.
    destruct (r_err (T h _)) eqn:H1; [split; [solve_once|solve_fail_fast]|].
    destruct (r_err (T (h ++ [_]) _)) eqn:H2; [split; [solve_once|solve_fail_fast]|].
    destruct (r_err (T (h ++ [_; _]) _)) eqn:H3; split;
      solve_once || solve_fail_fast.
  - apply no_retry_refused. unfold refused, insert. by rewrite guarded_fails.
Qed.

Lemma no_retry_select T h self query params :
  no_retry (select query params T h self).
Proof.
  destruct (is_connected self) eqn:Hc.
  - rewrite select_run by done. unfold read_all.
    destruct (r_err (T h _)) eqn:H1; split; solve_once || solve_fail_fast.
  - apply no_retry_refused. unfold refused, select. by rewrite guarded_fails.
Qed.

Lemma no_retry_select_streaming T h self query :
  no_retry (select_streaming query T h self).
Proof.
  destruct (is_connected self) eqn:Hc.
  - rewrite select_streaming_run by done.
    destruct (r_err (T h _)) eqn:H1; split; solve_once || solve_fail_fast.
  - apply no_retry_refused. unfold refused, select_streaming.
    by rewrite guarded_fails.
Qed.

Lemma no_retry_update T h self arrow_table table_name :
  no_retry (update arrow_table table_name T h self).
Proof.
  destruct (is_connected self) eqn:Hc.
  - rewrite update_run by done. split; [solve_once|].
    intros pre ev post Htr Hf. simpl in Htr. split_trace Htr.
    split; [done|]. unfold failed in Hf. simpl in Hf.
    destruct (r_err (T h _)) eqn:He; [|done].
    by eapply action_result_failed.
  - apply no_retry_refused. unfold refused, update. by rewrite guarded_fails.
Qed.

Lemma no_retry_delete T h self arrow_table table_name :
  no_retry (delete arrow_table table_name T h self).
Proof.
  destruct (is_connected self) eqn:Hc.
  - rewrite delete_run by done. split; [solve_once|].
    intros pre ev post Htr Hf. simpl in Htr. split_trace Htr.
    split; [done|]. unfold failed in Hf. simpl in Hf.
    destruct (r_err (T h _)) eqn:He; [|done].
    by eapply action_result_failed.
  - apply no_retry_refused. unfold refused, delete. by rewrite guarded_fails.
Qed.

Lemma connect_at_most_once T h self : at_most_once (trace (connect T h self)).
Proof.
  rewrite connect_cases. simpl.
  repeat (case_match; simpl; try solve_once).
Qed.

Lemma connect_fail_fast_but_probe T h self :
  fail_fast_but_probe (connect T h self).
Proof.
  rewrite connect_cases. unfold ev_auth, ev_probe, ev_new. simpl.
  destruct (r_err (T h _)) eqn:H1.
  { intros pre ev post Htr Hf Hne. simpl in Htr. split_trace Htr. eauto. }
  destruct (credential_configured (config self)).
  2: { intros pre ev post Htr Hf Hne. simpl in Htr. split_trace Htr.
       use_replies Hf. done. }
  destruct (r_err (T (h ++ [_]) _)) as [e|] eqn:H2.
  2: { intros pre ev post Htr Hf Hne. simpl in Htr. split_trace Htr;
       use_replies Hf; done. }
  destruct (auth_class e).
  - destruct (r_err (T (h ++ [_; _]) _)) eqn:H3;
      intros pre ev post Htr Hf Hne; simpl in Htr; split_trace Htr;
      use_replies Hf; try done; eauto.
  - destruct (no_auth_class e);
      intros pre ev post Htr Hf Hne; simpl in Htr; split_trace Htr;
      use_replies Hf; try done; eauto.
Qed.

Lemma connect_probe_policy T h self : probe_policy (connect T h self).
Proof.
  rewrite connect_cases. unfold ev_auth, ev_probe, ev_new. simpl.
  destruct (r_err (T h _)) as [e1|] eqn:H1.
  { intros pre r post e Htr Hr. simpl in Htr. by split_trace Htr. }
  destruct (credential_configured (config self)).
  2: { intros pre r post e Htr Hr. simpl in Htr. by split_trace Htr. }
  destruct (r_err (T (h ++ [_]) _)) as [e0|] eqn:H2.
  2: { intros pre r post e Htr Hr. simpl in Htr. split_trace Htr; congruence. }
  destruct (auth_class e0) eqn:Ha.
  - destruct (r_err (T (h ++ [_; _]) _)) as [e3|] eqn:H3;
      intros pre r post e Htr Hr; simpl in Htr; split_trace Htr;
      rewrite Ha; by eexists.
  - destruct (no_auth_class e0) eqn:Hn;
      intros pre r post e Htr Hr; simpl in Htr; split_trace Htr;
      rewrite Ha, Hn; eauto.
Qed.

(** C9 as stated fails for [connect]: the failed probe of a server that
    requires authentication is followed by the handshake, and the call
    returns. *)
Lemma connect_goes_on_after_failed_probe :
  let T := secured_server "etl" (api_key demo_config) in
  let o := connect T [] (__init__ demo_config) in
  (exists ev0 r_probe ev_hs,
     trace o = [ev0; Ev list_actions r_probe; ev_hs]
     /\ failed (Ev list_actions r_probe) = true
     /\ prim_of (ev_call ev_hs) = P_authenticate_basic_token)
  /\ result o = inr true
  /\ ~ fail_fast o.
Proof.
  intros T o.
  assert (trace o =
            [ Ev (FlightClient_new "grpc://localhost:8815") ok_reply;
              Ev list_actions (err_reply (Exn FlightError
                "Flight returned unauthenticated error, with message: no token"));
              Ev (authenticate_basic_token "etl" (api_key demo_config)) ok_reply ])
    as Htr by (vm_compute; reflexivity).
  split; [|split].
  - do 3 eexists. split; [exact Htr|]. split; reflexivity.
  - vm_compute. reflexivity.
  - intros Hff.
    destruct (Hff [Ev (FlightClient_new "grpc://localhost:8815") ok_reply]
                  _ _ Htr eq_refl) as [Hpost _].
    discriminate Hpost.
Qed.

(** C9, as the code has it: in a single call of connect, insert, select,
    select_streaming, update or delete no primitive is invoked twice; a
    failed invocation is the last one of the call and the call raises,
    except for the [list_actions] probe of [connect], whose failure is
    classified: a failure of the unauthenticated/unauthorized class is
    followed by the one handshake, a failure of the unimplemented-and-
    authentication class ends the invocations and [connect] returns True,
    and any other failure ends the invocations and [connect] raises. *)
Theorem no_retries T h self arrow_table table_name query params :
  (at_most_once (trace (connect T h self))
   /\ fail_fast_but_probe (connect T h self)
   /\ probe_policy (connect T h self))
  /\ no_retry (insert arrow_table table_name T h self)
  /\ no_retry (select query params T h self)
  /\ no_retry (select_streaming query T h self)
  /\ no_retry (update arrow_table table_name T h self)
  /\ no_retry (delete arrow_table table_name T h self).
Proof.
  split; [split; [|split]|].
  - apply connect_at_most_once.
  - apply connect_fail_fast_but_probe.
  - apply connect_probe_policy.
  - split; [apply no_retry_insert|].
    split; [apply no_retry_select|].
    split; [apply no_retry_select_streaming|].
    split; [apply no_retry_update|apply no_retry_delete].
Qed.

End NoRetries.

(** ** The global client facade (C8) *)

Section Facade.
Import A2FlightClient.
Context {codec : IpcCodec} {rt : PyRuntime}.

Lemma outcome_eta {S A} (o : outcome S A) :
  Outcome (result o) (final o) (trace o) = o.
Proof. by destruct o. Qed.



Lemma get_global_client_delegates {A} fs (method : nat -> M module_state A) T h g :
  bind (_get_global_client fs) method T h g
  = match live g with
    | Some i => method i T h g
    | None =>
        match a2flight_cl_config.new_client fs None (_config_instance g) with
        | (inr client, instance) =>
            let i := length (objects g) in
            bind (on_object i connect) (λ _, method i) T h
                 (replaced client instance g)
        | (inl error_msg, instance) => settings_refused error_msg instance g
        end
    end.
Proof.
  assert (bind (new_global_client fs) method T h g
          = match a2flight_cl_config.new_client fs None (_config_instance g) with
            | (inr client, instance) =>
                let i := length (objects g) in
                bind (on_object i connect) (λ _, method i) T h
                     (replaced client instance g)
            | (inl error_msg, instance) => settings_refused error_msg instance g
            end) as Hnew.
  { cbv beta iota delta [bind get new_global_client].
    destruct (a2flight_cl_config.new_client fs None (_config_instance g))
      as [[error_msg|client] instance].
    - reflexivity.
    - cbv beta iota zeta delta [bind put ret replaced]. rewrite ?app_nil_r.
      destruct (on_object _ connect T h _) as [[e|b] g1 tr]; [done|].
      cbv beta iota. rewrite ?app_nil_r. destruct (method _ T _ g1).
      by rewrite ?app_nil_r. }
  assert (bind (_get_global_client fs) method T h g
          = match live g with
            | Some i => method i T h g
            | None => bind (new_global_client fs) method T h g
            end) as Hget.
  { unfold live. cbv beta iota delta [bind get _get_global_client].
    rewrite ?app_nil_r.
    destruct (_global_client g) as [i|]; [destruct (is_connected _)|].
    - cbv beta iota delta [ret]. simpl. rewrite ?app_nil_r.
      by destruct (method i T h g).
    - destruct (new_global_client fs T h g) as [[e|j] g1 tr]; simpl; [done|].
      by destruct (method j T _ g1).
    - destruct (new_global_client fs T h g) as [[e|j] g1 tr]; simpl; [done|].
      by destruct (method j T _ g1). }
  rewrite Hget. destruct (live g); [done|]. apply Hnew.
Qed.

Ltac solve_delegates :=
  rewrite get_global_client_delegates;
  destruct (live _); [done|];
  by destruct (a2flight_cl_config.new_client _ None _) as [[?|?] ?].

Lemma ins_delegates fs T h g t n :
  delegates fs (a2db_ins fs t n) (insert t n) T h g.
Proof. unfold delegates, a2db_ins. solve_delegates. Qed.

Lemma sel_delegates fs T h g q p :
  delegates fs (a2db_sel fs q p) (select q p) T h g.
Proof. unfold delegates, a2db_sel. solve_delegates. Qed.

Lemma updt_delegates fs T h g t n :
  delegates fs (a2db_updt fs t n) (update t n) T h g.
Proof. unfold delegates, a2db_updt. solve_delegates. Qed.

Lemma del_delegates fs T h g t n :
  delegates fs (a2db_del fs t n) (delete t n) T h g.
Proof. unfold delegates, a2db_del. solve_delegates. Qed.

(** The CRUD methods leave the client object as it is. *)
Lemma insert_final T h self t n : final (insert t n T h self) = self.
Proof.
  destruct (is_connected self) eqn:Hc.
  - rewrite insert_run by done. simpl. by repeat case_match.
  - unfold insert. by rewrite guarded_fails.
Qed.

Lemma select_final T h self q p : final (select q p T h self) = self.
Proof.
  destruct (is_connected self) eqn:Hc.
  - by rewrite select_run.
  - unfold select. by rewrite guarded_fails.
Qed.

Lemma update_final T h self t n : final (update t n T h self) = self.
Proof.
  destruct (is_connected self) eqn:Hc.
  - by rewrite update_run.
  - unfold update. by rewrite guarded_fails.
Qed.

Lemma delete_final T h self t n : final (delete t n T h self) = self.
Proof.
  destruct (is_connected self) eqn:Hc.
  - by rewrite delete_run.
  - unfold delete. by rewrite guarded_fails.
Qed.

Lemma close_disconnects T h self : is_connected (final (close T h self)) = false.
Proof.
  unfold is_connected. unfold_py. destruct (_client self) eqn:Hh; simpl.
  - by next_reply.
  - rewrite Hh. simpl. apply andb_false_r.
Qed.



Lemma on_object_final {A} i (m : M t A) T h g :
  final (on_object i m T h g)
  = ModuleState (<[i := final (m T h (objects g !!! i))]> (objects g))
                (_global_client g) (_config_instance g).
Proof. unfold on_object. by destruct (m T h _). Qed.

Lemma on_object_trace {A} i (m : M t A) T h g :
  trace (on_object i m T h g) = trace (m T h (objects g !!! i)).
Proof. unfold on_object. by destruct (m T h _). Qed.

Lemma on_object_result {A} i (m : M t A) T h g :
  result (on_object i m T h g) = result (m T h (objects g !!! i)).
Proof. unfold on_object. by destruct (m T h _). Qed.

(** A method that leaves the client as it is leaves the module state. *)
Lemma on_object_id {A} i (m : M t A) T h g :
  (forall self, final (m T h self) = self) ->
  final (on_object i m T h g) = g.
Proof.
  intros Hm. rewrite on_object_final, Hm. destruct g as [objs ref inst]. simpl.
  f_equal. apply list_insert_id'. intros Hi.
  by apply list_lookup_lookup_total_lt.
Qed.











End Facade.

Lemma first_call_loads_and_connects :
  let T := always ok_reply in
  let g0 := @ModuleState example_runtime [] None None in
  let g := final (call_api (one_file example_lines) (api_ins sample_batch "t")
                           T [] g0) in
  live g = Some 0.
Proof. vm_compute. reflexivity. Qed.



(** ** Scenarios *)

Section Scenarios.
Import A2FlightClient.

Example lower_mixed_case :
  PyStr.lower "Flight returned UNAUTHENTICATED error" = "flight returned unauthenticated error".
Proof. reflexivity. Qed.

Example contains_inside :
  PyStr.contains "access denied" "rpc: access denied for 203.0.113.9" = true
  /\ PyStr.contains "client disabled" "rpc: access denied for 203.0.113.9" = false.
Proof. split; reflexivity. Qed.

Example api_key_prefix :
  PyStr.take 12 (api_key demo_config) = "a2db_key_5f2"
  /\ PyStr.take 12 "short" = "short".
Proof. split; reflexivity. Qed.

(** A name that two fields carry cannot be looked up. *)
Example getitem_twice :
  exists e,
    Arrow.getitem [Column "success" TBool [PyBool true];
                   Column "success" TBool [PyBool false]] "success" = inl e
    /\ exn_cls e = KeyError.
Proof. eexists. split; reflexivity. Qed.

(** Inserting a three-row batch into 't' reports three rows written. *)
Example insert_three_rows :
  let o := insert sample_batch "t" (always ok_reply) []
                  (connected (__init__ demo_config)) in
  result o = inr ({[ "success" := PyBool true; "rows_written" := PyInt 3;
                     "method_used" := PyStr "flight" ]} : gmap string pyval)
  /\ prim_of ∘ ev_call <$> trace o = [P_do_put; P_write_table; P_writer_close].
Proof. cbv zeta. rewrite insert_run by done. simpl. split; reflexivity. Qed.

(** Against a server that requires authentication, [connect] probes, is
    refused, authenticates and is connected; a wrong key is reported as
    the invalid-API-key failure. *)
Example connect_to_secured_server :
  let o := connect (secured_server "etl" (api_key demo_config)) []
                   (__init__ demo_config) in
  result o = inr true
  /\ prim_of ∘ ev_call <$> trace o
     = [P_new; P_list_actions; P_authenticate_basic_token].
Proof. vm_compute. split; reflexivity. Qed.

Example connect_with_wrong_key :
  let o := connect (secured_server "etl" "a2db_key_another") []
                   (__init__ demo_config) in
  result o = inl (ClientError
               ("Connection failed: " +:+ invalid_api_key_msg demo_config))
  /\ _connected (final o) = false.
Proof. vm_compute. split; reflexivity. Qed.

(** With nobody at the other end and a key configured, the probe's failure
    gives the server-not-running error. *)
Example connect_to_nobody :
  result (connect unreachable_server [] (__init__ demo_config))
  = inl (ClientError "Arrow Flight server is not running at grpc://localhost:8815").
Proof. vm_compute. reflexivity. Qed.

End Scenarios.

(** * Further properties of the client *)

(** ** close() *)

Section Close.
Import A2FlightClient.
Context {codec : IpcCodec}.



(** A client that does not report connected, as after [close], refuses
    every CRUD call: the state error is raised, nothing is invoked and the
    client is left as it is. *)
Theorem closed_client_refuses T h self h' arrow_table table_name query params :
  let closed := final (close T h self) in
  turned_away closed (insert arrow_table table_name T h' closed)
  /\ turned_away closed (select query params T h' closed)
  /\ turned_away closed (select_streaming query T h' closed)
  /\ turned_away closed (update arrow_table table_name T h' closed)
  /\ turned_away closed (delete arrow_table table_name T h' closed).
Proof.
  intros closed.
  assert (is_connected closed = false) as Hc by apply close_disconnects.
  unfold turned_away, refused, insert, select, select_streaming, update, delete.
  by rewrite !guarded_fails.
Qed.

(** A [connect] that raises leaves the connected flag as it was, and the
    handle either as it was or replaced by the new one: a client that
    reported connected before a failed reconnect still does. *)
Theorem failed_connect_keeps_state T h self e :
  result (connect T h self) = inl e ->
  let self' := final (connect T h self) in
  _connected self' = _connected self
  /\ (self' = self \/ self' = opened self)
  /\ (is_connected self = true -> is_connected self' = true).
Proof.
  rewrite connect_cases. simpl.
  repeat (case_match; simpl; try done); intros _;
    (split; [done|]); (split; [by (left + right)|]);
    unfold is_connected, opened; simpl; try done;
    by intros [-> _]%andb_true_iff.
Qed.

Lemma reconnect_raises_on_boom :
  result (connect
            (probe_fails (Exn FlightError
               "Flight returned internal error, with message: boom"))
            [] (connected (__init__ demo_config)))
  = inl (ClientError
      "Connection failed: Flight returned internal error, with message: boom").
Proof. vm_compute. reflexivity. Qed.

Lemma failed_connect_keeps_state_witness :
  let e := Exn FlightError "Flight returned internal error, with message: boom" in
  let self := connected (__init__ demo_config) in
  is_connected (final (connect (probe_fails e) [] self)) = true.
Proof.
  intros e self.
  destruct (failed_connect_keeps_state (probe_fails e) [] self _
              reconnect_raises_on_boom) as (_ & _ & Hc).
  by apply Hc.
Defined.

End Close.

(** ** Context managers *)

Section ContextManagers.
Import A2FlightClient.


Lemma connect_never_closes T h self :
  invocations P_close (trace (connect T h self)) = 0.
Proof.
  rewrite connect_cases. simpl. by repeat (case_match; simpl; try done).
Qed.




End ContextManagers.

(** ** Errors and results of the CRUD methods *)

Section CrudFacts.
Import A2FlightClient.
Context {codec : IpcCodec}.

Lemma raises_only_refused {A} (o : outcome t A) :
  refused o -> raises_only A2FlightClientError o.
Proof. intros [Hr _] e He. rewrite Hr in He. by simplify_eq. Qed.








End CrudFacts.


(** ** The shared client across calls *)

Section FacadeFacts.
Import A2FlightClient.
Context {codec : IpcCodec} {rt : PyRuntime}.

Lemma invocations_app p tr1 tr2 :
  invocations p (tr1 ++ tr2) = invocations p tr1 + invocations p tr2.
Proof. unfold invocations. by rewrite filter_app, length_app. Qed.

Lemma data_only_invocations p tr :
  data_only tr -> p ∉ data_prims -> invocations p tr = 0.
Proof.
  unfold data_only, invocations. intros Hall Hp.
  induction Hall as [|ev tr Hev _ IH]; [done|].
  rewrite filter_cons. case_decide as Heq; [|done].
  rewrite Heq in Hev. done.
Qed.

Ltac solve_data_only :=
  unfold data_only, data_prims;
  repeat (case_match; simpl);
  repeat (constructor; [simpl; set_solver|]); constructor.

Lemma insert_data_only T h self t n : data_only (trace (insert t n T h self)).
Proof.
  destruct (is_connected self) eqn:Hc.
  - rewrite insert_run by done. simpl. solve_data_only.
  - unfold insert. rewrite guarded_fails by done. constructor.
Qed.

Lemma select_data_only T h self q p : data_only (trace (select q p T h self)).
Proof.
  destruct (is_connected self) eqn:Hc.
  - rewrite select_run by done. simpl. solve_data_only.
  - unfold select. rewrite guarded_fails by done. constructor.
Qed.

Lemma update_data_only T h self t n : data_only (trace (update t n T h self)).
Proof.
  destruct (is_connected self) eqn:Hc.
  - rewrite update_run by done. simpl. solve_data_only.
  - unfold update. rewrite guarded_fails by done. constructor.
Qed.

Lemma delete_data_only T h self t n : data_only (trace (delete t n T h self)).
Proof.
  destruct (is_connected self) eqn:Hc.
  - rewrite delete_run by done. simpl. solve_data_only.
  - unfold delete. rewrite guarded_fails by done. constructor.
Qed.

Lemma insert_quiet t n : quiet (insert t n).
Proof. intros T h self. split; [apply insert_final|apply insert_data_only]. Qed.
Lemma select_quiet q p : quiet (select q p).
Proof. intros T h self. split; [apply select_final|apply select_data_only]. Qed.
Lemma update_quiet t n : quiet (update t n).
Proof. intros T h self. split; [apply update_final|apply update_data_only]. Qed.
Lemma delete_quiet t n : quiet (delete t n).
Proof. intros T h self. split; [apply delete_final|apply delete_data_only]. Qed.

Lemma delegated_live {A} fs (api : M module_state A) (method : M t A) T h g i :
  quiet method -> delegates fs api method T h g -> live g = Some i ->
  final (api T h g) = g /\ data_only (trace (api T h g)).
Proof.
  intros Hq Hdel Hlive. unfold delegates in Hdel. rewrite Hlive in Hdel.
  rewrite Hdel. split.
  - apply on_object_id. intros. apply Hq.
  - rewrite on_object_trace. apply Hq.
Qed.

(** While the shared client reports connected, a CRUD call of the API
    leaves the module state as it is and invokes data primitives only,
    whether the call returns or raises: a call that fails, even because the
    server is gone, does not mark the client disconnected, so that no later
    call builds a new handle, probes or authenticates again. *)
Theorem api_failure_does_not_reconnect fs T h g i
    arrow_table table_name query params :
  live g = Some i ->
  kept g i (a2db_ins fs arrow_table table_name T h g)
  /\ kept g i (a2db_sel fs query params T h g)
  /\ kept g i (a2db_updt fs arrow_table table_name T h g)
  /\ kept g i (a2db_del fs arrow_table table_name T h g).
Proof.
  intros Hlive. unfold kept.
  assert (P_new ∉ data_prims) as Hnew by
    (unfold data_prims; rewrite !not_elem_of_cons; repeat split; done || apply not_elem_of_nil).
  pose proof (delegated_live fs _ _ T h g i (insert_quiet arrow_table table_name)
                (ins_delegates fs T h g arrow_table table_name) Hlive) as [H1 H1'].
  pose proof (delegated_live fs _ _ T h g i (select_quiet query params)
                (sel_delegates fs T h g query params) Hlive) as [H2 H2'].
  pose proof (delegated_live fs _ _ T h g i (update_quiet arrow_table table_name)
                (updt_delegates fs T h g arrow_table table_name) Hlive) as [H3 H3'].
  pose proof (delegated_live fs _ _ T h g i (delete_quiet arrow_table table_name)
                (del_delegates fs T h g arrow_table table_name) Hlive) as [H4 H4'].
  rewrite H1, H2, H3, H4.
  repeat split; try done; by apply data_only_invocations.
Qed.

End FacadeFacts.

Section FacadeHandles.
Import A2FlightClient.
Context {codec : IpcCodec} {rt : PyRuntime}.

Lemma close_not_data : P_close ∉ data_prims.
Proof.
  unfold data_prims. rewrite !not_elem_of_cons.
  repeat split; done || apply not_elem_of_nil.
Qed.

Lemma insert_last {X} (l : list X) (x y : X) :
  <[length l := y]> (l ++ [x]) = l ++ [y].
Proof.
  replace (length l) with (length l + 0) at 1 by lia.
  by rewrite insert_app_r.
Qed.

Lemma replaced_lookup_new client instance g :
  objects (replaced client instance g) !!! length (objects g) = client.
Proof.
  unfold replaced. simpl. rewrite lookup_total_app_r by done.
  by rewrite Nat.sub_diag.
Qed.

(** What a CRUD call of the API does when no live client is there and
    [A2FlightClient()] has made [client]. *)
Lemma delegated_stale_run {A} (method : M t A) T h g client instance :
  let i := length (objects g) in
  let oc := connect T h client in
  bind (on_object i connect) (λ _, on_object i method) T h
       (replaced client instance g)
  = match result oc with
    | inl e =>
        Outcome (inl e) (ModuleState (objects g ++ [final oc]) (Some i) instance)
                (trace oc)
    | inr _ =>
        let om := method T (h ++ trace oc) (final oc) in
        Outcome (result om)
                (ModuleState (objects g ++ [final om]) (Some i) instance)
                (trace oc ++ trace om)
    end.
Proof.
  intros i oc. unfold bind.
  pose proof (on_object_result i connect T h (replaced client instance g)) as Hr.
  pose proof (on_object_final i connect T h (replaced client instance g)) as Hf.
  pose proof (on_object_trace i connect T h (replaced client instance g)) as Ht.
  subst i. rewrite replaced_lookup_new in Hr, Hf, Ht. fold oc in Hr, Hf, Ht.
  unfold replaced in Hf. simpl in Hf. rewrite insert_last in Hf.
  destruct (on_object _ connect T h _) as [r g1 tr]. simpl in *. subst.
  destruct (result oc) as [e|b]; [done|].
  set (g1 := ModuleState (objects g ++ [final oc]) (Some (length (objects g)))
                         instance).
  pose proof (on_object_result (length (objects g)) method T (h ++ trace oc) g1) as Hr.
  pose proof (on_object_final (length (objects g)) method T (h ++ trace oc) g1) as Hf.
  pose proof (on_object_trace (length (objects g)) method T (h ++ trace oc) g1) as Ht.
  assert (objects g1 !!! length (objects g) = final oc) as Hl.
  { subst g1. simpl. rewrite lookup_total_app_r by done.
    by rewrite Nat.sub_diag. }
  rewrite Hl in Hr, Hf, Ht. subst g1. simpl in Hf. rewrite insert_last in Hf.
  destruct (on_object _ method T _ _) as [r g2 tr]. simpl in *. by subst.
Qed.

Lemma delegated_keeps {A} fs (api : M module_state A) (method : M t A) T h g :
  quiet method -> delegates fs api method T h g ->
  keeps_clients g (api T h g).
Proof.
  intros Hq Hdel. unfold keeps_clients.
  destruct (live g) as [i|] eqn:Hlive.
  - destruct (delegated_live fs api method T h g i Hq Hdel Hlive) as [-> Hd].
    split; [|done]. apply data_only_invocations; [done|apply close_not_data].
  - unfold delegates in Hdel. rewrite Hlive in Hdel.
    destruct (a2flight_cl_config.new_client fs None (_config_instance g))
      as [[error_msg|client] instance]; simpl in Hdel; rewrite Hdel.
    { unfold settings_refused. simpl. done. }
    rewrite delegated_stale_run.
    pose proof (connect_never_closes T h client) as Hnc.
    destruct (connect T h client) as [[e|b] s' tr]; simpl in *.
    + split; [done|]. split; [|rewrite length_app; lia].
      intros j Hj. by rewrite lookup_total_app_l.
    + destruct (Hq T (h ++ tr) s') as [_ Hd].
      split; [|split; [|rewrite length_app; lia]].
      * rewrite invocations_app, Hnc. simpl.
        apply data_only_invocations; [done|apply close_not_data].
      * intros j Hj. by rewrite lookup_total_app_l.
Qed.

(** The CRUD calls of the API never close a handle and never touch a
    client other than the shared one: every client in the store, also one
    that a call replaces because it does not report connected, is left
    exactly as it was, with the handle it holds. *)
Theorem api_never_closes_handles fs T h g arrow_table table_name query params :
  keeps_clients g (a2db_ins fs arrow_table table_name T h g)
  /\ keeps_clients g (a2db_sel fs query params T h g)
  /\ keeps_clients g (a2db_updt fs arrow_table table_name T h g)
  /\ keeps_clients g (a2db_del fs arrow_table table_name T h g).
Proof.
  split; [|split; [|split]].
  - eapply delegated_keeps; [apply insert_quiet|apply ins_delegates].
  - eapply delegated_keeps; [apply select_quiet|apply sel_delegates].
  - eapply delegated_keeps; [apply update_quiet|apply updt_delegates].
  - eapply delegated_keeps; [apply delete_quiet|apply del_delegates].
Qed.




End FacadeHandles.

Lemma api_failure_does_not_reconnect_witness :
  let g := final (call_api (one_file example_lines) (api_ins sample_batch "t")
                           (always ok_reply) []
                           (@ModuleState example_runtime [] None None)) in
  kept g 0 (a2db_sel no_files "SELECT 1" None unreachable_server [] g).
Proof.
  intros g.
  destruct (api_failure_does_not_reconnect no_files unreachable_server [] g 0
              sample_batch "t" "SELECT 1" None first_call_loads_and_connects)
    as (_ & Hsel & _).
  exact Hsel.
Defined.

(** * Properties of the configuration loader *)

Section ConfigFacts.
Import a2flight_cl_config.
Context {rt : PyRuntime}.

(** The check of the API key in [validate_config], alone. *)
Lemma validate_config_key c :
  validate_config c = [] ->
  PyStr.truthy (api_key c) = true
  /\ api_key c <> "<to be entered>"
  /\ 32 <= String.length (api_key c)
  /\ PyStr.startswith "a2db_key_" (api_key c) = true.
Proof.
  unfold validate_config. intros H.
  apply app_nil in H as [_ H]. apply app_nil in H as [H _].
  set (sw := PyStr.startswith "a2db_key_" (api_key c)) in *.
  destruct (PyStr.truthy (api_key c)); simpl in H; [|done].
  case_bool_decide as Hs; simpl in H; [done|].
  destruct (String.length (api_key c) <? 32) eqn:Hlen; simpl in H;
    [discriminate H|].
  apply Nat.ltb_ge in Hlen.
  destruct sw; simpl in H; [done|discriminate H].
Qed.

(** A configuration that [validate_config] accepts has a usable API key:
    not empty, not the placeholder, at least 32 characters, beginning
    with 'a2db_key_'.  A client built from it therefore always probes the
    server: once the handle is made, [connect] invokes [list_actions]
    exactly once. *)
Theorem validated_config_probes c :
  validate_config c = [] ->
  A2FlightClient.credential_configured (client_view c) = true
  /\ 32 <= String.length (api_key c)
  /\ PyStr.startswith "a2db_key_" (api_key c) = true
  /\ forall T h,
       r_err (T h (FlightClient_new (server_location c))) = None ->
       invocations P_list_actions
         (trace (A2FlightClient.connect T h (A2FlightClient.__init__ (client_view c))))
       = 1.
Proof.
  intros (Ht & Hs & Hlen & Hpre)%validate_config_key.
  assert (A2FlightClient.credential_configured (client_view c) = true) as Hcred.
  { unfold A2FlightClient.credential_configured. simpl. rewrite Ht. simpl.
    by apply bool_decide_eq_true. }
  split; [done|]. split; [done|]. split; [done|].
  intros T h Hnew. rewrite connect_cases. simpl. rewrite Hnew, Hcred.
  by repeat case_match.
Qed.

(** The host and the protocol are checked for being given and for being a
    known protocol, and for nothing else: changing one given host for
    another and one known protocol for another changes no error, in any
    environment.  In production, 'localhost' and 'grpc' without TLS are
    accepted. *)
Theorem validate_config_ignores_endpoint c host protocol :
  PyStr.truthy host = true ->
  PyStr.truthy (server_host c) = true ->
  protocol ∈ ConnectionProtocol.VALID ->
  connection_protocol c ∈ ConnectionProtocol.VALID ->
  validate_config (with_endpoint host protocol c) = validate_config c.
Proof.
  intros Hh Hh' Hp Hp'. unfold validate_config, with_endpoint. simpl.
  rewrite Hh, Hh'.
  rewrite !(bool_decide_eq_false_2 (_ ∉ ConnectionProtocol.VALID)) by auto.
  done.
Qed.


End ConfigFacts.

Section ConfigWitnesses.
Import a2flight_cl_config.

Lemma example_settings_valid : validate_config example_settings = [].
Proof. vm_compute. reflexivity. Qed.

Lemma validated_config_probes_witness :
  A2FlightClient.credential_configured (client_view example_settings) = true
  /\ invocations P_list_actions
       (trace (A2FlightClient.connect (always ok_reply) []
                 (A2FlightClient.__init__ (client_view example_settings))))
     = 1.
Proof.
  destruct (validated_config_probes example_settings example_settings_valid)
    as (Hcred & _ & _ & Hprobe).
  split; [exact Hcred|]. apply Hprobe. reflexivity.
Defined.

Lemma validate_config_ignores_endpoint_witness :
  validate_config (with_endpoint "flight.example.org" "grpc+tls" example_settings)
  = validate_config example_settings.
Proof.
  apply validate_config_ignores_endpoint.
  - reflexivity.
  - vm_compute. reflexivity.
  - apply list_elem_of_further, list_elem_of_here.
  - vm_compute. apply list_elem_of_here.
Defined.



End ConfigWitnesses.

Section ConfigClient.
Import a2flight_cl_config.
Context {rt : PyRuntime}.






End ConfigClient.


(** * Properties of the settings file *)

Section PyTextFacts.
Import PyText.
Variable p : ascii -> bool.

Lemma lstrip_by_length s : String.length (lstrip_by p s) <= String.length s.
Proof. induction s as [|c s IH]; simpl; [lia|]. destruct (p c); simpl; lia. Qed.

Lemma rstrip_by_length s : String.length (rstrip_by p s) <= String.length s.
Proof.
  induction s as [|c s IH]; simpl; [lia|].
  destruct (rstrip_by p s); [destruct (p c)|]; simpl in *; lia.
Qed.

Lemma lstrip_by_fixed s :
  lstrip_by p s = s -> s = EmptyString \/ exists c s', s = String c s' /\ p c = false.
Proof.
  destruct s as [|c s]; [by left|]. simpl. destruct (p c) eqn:Hc.
  - intros H. pose proof (lstrip_by_length s) as Hl. rewrite H in Hl.
    simpl in Hl. lia.
  - intros _. right. by exists c, s.
Qed.

Lemma strip_by_fixed s :
  strip_by p s = s -> lstrip_by p s = s /\ rstrip_by p s = s.
Proof.
  unfold strip_by. intros H.
  assert (lstrip_by p s = s) as Hl.
  { destruct s as [|c s]; [done|]. simpl in *. destruct (p c); [|done].
    pose proof (rstrip_by_length (lstrip_by p s)) as H1.
    pose proof (lstrip_by_length s) as H2.
    rewrite H in H1. simpl in H1. lia. }
  by rewrite Hl in H.
Qed.

Lemma rstrip_by_cons_keep c s :
  p c = false -> rstrip_by p (String c s) = String c (rstrip_by p s).
Proof. intros Hc. simpl. rewrite Hc. by destruct (rstrip_by p s). Qed.

Lemma rstrip_by_app_keep a c s :
  p c = false -> rstrip_by p (a +:+ String c s) = a +:+ rstrip_by p (String c s).
Proof.
  intros Hc. rewrite (rstrip_by_cons_keep c s Hc).
  induction a as [|x a IH]; [exact (rstrip_by_cons_keep c s Hc)|].
  change (String x a +:+ String c s) with (String x (a +:+ String c s)).
  cbn [rstrip_by]. rewrite IH. destruct a; reflexivity.
Qed.

Lemma rstrip_by_all w : all_chars p w = true -> rstrip_by p w = EmptyString.
Proof.
  induction w as [|c w IH]; [done|]. simpl.
  intros [Hc Hw]%andb_true_iff. by rewrite IH, Hc.
Qed.

Lemma rstrip_by_app_drop v w :
  all_chars p w = true -> rstrip_by p (v +:+ w) = rstrip_by p v.
Proof.
  intros Hw. induction v as [|c v IH]; [by apply rstrip_by_all|].
  change (String c v +:+ w) with (String c (v +:+ w)).
  cbn [rstrip_by]. by rewrite IH.
Qed.

End PyTextFacts.

Section LineFacts.
Import PyText a2flight_cl_config.

Lemma lstrip_by_app_fixed p k c s :
  lstrip_by p k = k -> p c = false ->
  lstrip_by p (k +:+ String c s) = k +:+ String c s.
Proof.
  intros Hk Hc. destruct (lstrip_by_fixed p k Hk) as [->|(x & k' & -> & Hx)];
    simpl; [by rewrite Hc|by rewrite Hx].
Qed.

Lemma contains_char_cons c a s :
  PyStr.contains (String c EmptyString) (String a s)
  = bool_decide (c = a) || PyStr.contains (String c EmptyString) s.
Proof. cbn [PyStr.contains PyStr.startswith]. by repeat case_decide; case_bool_decide. Qed.

Lemma split_once_none c s :
  split_once c s = None <-> PyStr.contains (String c EmptyString) s = false.
Proof.
  induction s as [|a s IH]; [done|].
  rewrite contains_char_cons. cbn [split_once].
  case_decide as Ha; subst.
  - rewrite bool_decide_eq_true_2 by done. done.
  - rewrite bool_decide_eq_false_2 by done. simpl. rewrite <- IH.
    destruct (split_once c s) as [[??]|]; done.
Qed.

Lemma split_once_app c k v :
  PyStr.contains (String c EmptyString) k = false ->
  split_once c (k +:+ String c v) = Some (k, v).
Proof.
  induction k as [|a k IH]; intros Hk.
  - simpl. by case_decide.
  - rewrite contains_char_cons in Hk. apply orb_false_iff in Hk as [Ha Hk].
    apply bool_decide_eq_false in Ha.
    change (String a k +:+ String c v) with (String a (k +:+ String c v)).
    cbn [split_once]. case_decide; [congruence|]. by rewrite IH.
Qed.

Context {rt : PyRuntime}.

(** A line is skipped exactly when it makes no assignment. *)
Lemma parse_line_skipped line : parse_line line = None <-> skipped line = true.
Proof.
  unfold parse_line, skipped. cbv zeta.
  set (l := strip line). set (sw := PyStr.startswith "#" l).
  pose proof (split_once_none "=" l) as Hs.
  set (ct := PyStr.contains "=" l) in *.
  destruct (PyStr.truthy l), sw; cbn [negb andb orb]; try done.
  destruct (split_once "=" l) as [[??]|].
  - split; [done|]. intros Hc%negb_true_iff. apply Hs in Hc. done.
  - split; [|done]. intros _. apply negb_true_iff, Hs. done.
Qed.

Lemma parse_line_assignment k v :
  strip k = k -> PyStr.startswith "#" k = false ->
  PyStr.contains "=" k = false -> plain v ->
  parse_line (k +:+ "=" +:+ v +:+ PyStr.nl) = Some (k, v).
Proof.
  intros Hk Hc He (Hv & Hdq & Hsq).
  apply strip_by_fixed in Hk as Hk'. destruct Hk' as [Hkl Hkr].
  apply strip_by_fixed in Hv as Hv'. destruct Hv' as [Hvl Hvr].
  assert (strip (k +:+ "=" +:+ v +:+ PyStr.nl) = k +:+ String "=" v) as Hline.
  { change (k +:+ "=" +:+ v +:+ PyStr.nl) with (k +:+ String "=" (v +:+ PyStr.nl)).
    unfold strip, strip_by.
    rewrite lstrip_by_app_fixed by done.
    rewrite rstrip_by_app_keep, rstrip_by_cons_keep by done.
    rewrite rstrip_by_app_drop by done. by rewrite Hvr. }
  unfold parse_line. rewrite Hline.
  assert (PyStr.truthy (k +:+ String "=" v) = true) as -> by (by destruct k).
  assert (PyStr.startswith "#" (k +:+ String "=" v) = false) as ->.
  { destruct k as [|a k]; [done|]. simpl in *. by case_decide. }
  simpl. rewrite split_once_app by done.
  unfold strip_char in *. by rewrite Hk, Hv, Hdq, Hsq.
Qed.

Lemma parse_lines_snoc lines line :
  parse_lines (lines ++ [line])
  = match parse_line line with
    | Some (key, value) => <[key := value]> (parse_lines lines)
    | None => parse_lines lines
    end.
Proof. unfold parse_lines. by rewrite foldl_app. Qed.




(** The last line of a file that assigns a variable decides its value,
    whatever the earlier lines are: after [A2FLIGHT_<name>=<value>], with
    no blank around the name and the value and no quote around the value,
    [get_str] gives that value, which may itself hold an equals sign. *)
Theorem last_assignment_wins lines name value default :
  strip ("A2FLIGHT_" +:+ name) = "A2FLIGHT_" +:+ name ->
  PyStr.contains "=" name = false ->
  plain value ->
  get_str (parse_lines (lines ++ ["A2FLIGHT_" +:+ name +:+ "=" +:+ value +:+ PyStr.nl]))
    name default = value.
Proof.
  intros Hname He Hvalue. rewrite parse_lines_snoc.
  change ("A2FLIGHT_" +:+ name +:+ "=" +:+ value +:+ PyStr.nl)
    with (("A2FLIGHT_" +:+ name) +:+ "=" +:+ value +:+ PyStr.nl).
  rewrite parse_line_assignment by done.
  unfold get_str, env_get. by rewrite lookup_insert_eq.
Qed.

End LineFacts.


Lemma last_assignment_wins_witness :
  a2flight_cl_config.get_str
    (a2flight_cl_config.parse_lines
       (example_lines ++ ["A2FLIGHT_" +:+ "SERVER_HOST" +:+ "=" +:+ "db=1.example.org" +:+ PyStr.nl]))
    "SERVER_HOST" "localhost"
  = "db=1.example.org".
Proof.
  apply last_assignment_wins.
  - reflexivity.
  - reflexivity.
  - repeat split.
Defined.

Section ListFacts.
Import PyText a2flight_cl_config.

Lemma split_none c s :
  PyStr.contains (String c EmptyString) s = false -> split c s = [s].
Proof.
  induction s as [|a s IH]; [done|].
  rewrite contains_char_cons. intros [Ha Hs]%orb_false_iff.
  apply bool_decide_eq_false in Ha. cbn [split].
  case_decide; [congruence|]. by rewrite IH.
Qed.

Lemma split_app c s rest :
  PyStr.contains (String c EmptyString) s = false ->
  split c (s +:+ String c rest) = s :: split c rest.
Proof.
  induction s as [|a s IH].
  - intros _. simpl. by case_decide.
  - rewrite contains_char_cons. intros [Ha Hs]%orb_false_iff.
    apply bool_decide_eq_false in Ha.
    change (String a s +:+ String c rest) with (String a (s +:+ String c rest)).
    cbn [split]. case_decide; [congruence|]. by rewrite IH.
Qed.

Lemma split_join c items :
  items <> [] ->
  Forall (λ item, PyStr.contains (String c EmptyString) item = false) items ->
  split c (join (String c EmptyString) items) = items.
Proof.
  intros Hne Hitems. induction Hitems as [|s l Hs Hl IH]; [done|].
  destruct l as [|s2 l]; [by apply split_none|].
  change (join (String c EmptyString) (s :: s2 :: l))
    with (s +:+ String c (join (String c EmptyString) (s2 :: l))).
  rewrite split_app by done. by rewrite IH.
Qed.

Lemma join_truthy sep items :
  items <> [] -> Forall (λ item, PyStr.truthy item = true) items ->
  PyStr.truthy (join sep items) = true.
Proof.
  intros Hne Hitems. destruct Hitems as [|s l Hs Hl]; [done|].
  destruct s; [done|]. by destruct l.
Qed.

Context {rt : PyRuntime}.

(** A list written with commas is read back item by item: when the
    variable holds [','.join(items)] for a non-empty list of items,
    [get_list] returns [items], not the default. *)
Theorem get_list_reads_join env_vars key items default :
  items <> [] -> Forall list_item items ->
  env_get env_vars key = Some (join "," items) ->
  get_list env_vars key default = items.
Proof.
  intros Hne Hitems Hget. unfold get_list. rewrite Hget. simpl.
  rewrite join_truthy; [|done|by eapply Forall_impl; [done|intros ? (?&?&?)]].
  rewrite split_join; [|done|by eapply Forall_impl; [done|intros ? (?&?&?)]].
  clear Hget Hne. induction Hitems as [|s l (Hs & Ht & _) Hl IH]; [done|].
  rewrite fmap_cons, filter_cons_True by (by rewrite Hs).
  by rewrite Hs, IH.
Qed.

End ListFacts.

Lemma get_list_reads_join_witness :
  a2flight_cl_config.get_list
    (a2flight_cl_config.parse_lines
       ["A2FLIGHT_CLIENT_ALLOWED_OPERATIONS=SELECT,INSERT" +:+ PyStr.nl])
    "CLIENT_ALLOWED_OPERATIONS" ["SELECT"; "INSERT"; "UPDATE"; "DELETE"]
  = ["SELECT"; "INSERT"].
Proof.
  apply get_list_reads_join.
  - discriminate.
  - repeat constructor.
  - vm_compute. reflexivity.
Defined.

(** ** The generated settings file *)

Section TextFacts.
Import PyText.

Lemma all_chars_app q a b :
  all_chars q a = true -> all_chars q b = true -> all_chars q (a +:+ b) = true.
Proof.
  intros Ha Hb. induction a as [|c a IH]; [done|].
  simpl in *. apply andb_true_iff in Ha as [-> Ha]. by apply IH.
Qed.

Lemma pretty_N_char_digit (q : ascii -> bool) :
  all_chars q "0123456789" = true -> forall d, q (pretty_N_char d) = true.
Proof.
  simpl. intros H d. repeat (apply andb_true_iff in H as [? H]).
  unfold pretty_N_char. by repeat case_match.
Qed.

Lemma pretty_N_go_chars (q : ascii -> bool) x s :
  all_chars q "0123456789" = true -> all_chars q s = true ->
  all_chars q (pretty_N_go x s) = true.
Proof.
  intros Hq. revert s. induction (N.lt_wf_0 x) as [x _ IH]; intros s Hs.
  assert (x = 0 \/ 0 < x)%N as [->|Hx] by lia; [by rewrite pretty_N_go_0|].
  rewrite pretty_N_go_step by done. apply IH; [by apply N.div_lt|].
  simpl. by rewrite pretty_N_char_digit.
Qed.

(** [str(n)] consists of digits and, for a negative number, the sign. *)
Lemma pretty_Z_chars (q : ascii -> bool) (n : Z) :
  all_chars q "-0123456789" = true -> all_chars q (pretty n) = true.
Proof.
  intros Hq. assert (all_chars q "0123456789" = true) as Hd.
  { simpl in *. by apply andb_true_iff in Hq as [_ ->]. }
  assert (q "-"%char = true) as Hm.
  { simpl in *. by apply andb_true_iff in Hq as [-> _]. }
  assert (forall p : positive, all_chars q (pretty p) = true) as Hp.
  { intros p. unfold pretty, pretty_positive, pretty, pretty_N.
    case_decide; [done|]. by apply pretty_N_go_chars. }
  destruct n as [|p|p]; unfold pretty, pretty_Z.
  - simpl in *. by apply andb_true_iff in Hd as [-> _].
  - apply Hp.
  - change ("-" +:+ pretty p) with (String "-" (pretty p)).
    simpl. rewrite Hm. apply Hp.
Qed.

Lemma one_line_app a b :
  one_line a = true -> one_line b = true -> one_line (a +:+ b) = true.
Proof. apply all_chars_app. Qed.

Lemma one_line_pretty (n : Z) : one_line (pretty n) = true.
Proof. by apply pretty_Z_chars. Qed.

Lemma text_lines_line line rest :
  one_line line = true ->
  text_lines (line +:+ PyStr.nl +:+ rest) = (line +:+ PyStr.nl) :: text_lines rest.
Proof.
  induction line as [|c line IH]; [done|].
  unfold one_line. cbn [all_chars]. intros [Hc Hline]%andb_true_iff.
  apply negb_true_iff, orb_false_iff in Hc as [Hn Hr].
  apply bool_decide_eq_false in Hn, Hr.
  change (String c line +:+ PyStr.nl +:+ rest)
    with (String c (line +:+ PyStr.nl +:+ rest)).
  cbn [text_lines]. rewrite !decide_False by done. by rewrite IH.
Qed.

(** Reading a text written line by line gives its lines back. *)
Lemma text_lines_text lines :
  Forall (λ line, one_line line = true) lines ->
  text_lines (text lines) = (λ line, line +:+ PyStr.nl) <$> lines.
Proof.
  induction 1 as [|line lines Hline Hlines IH]; [done|].
  cbn [text]. rewrite text_lines_line by done. by rewrite IH.
Qed.

Lemma strip_all_chars (p q : ascii -> bool) s :
  (forall c, q c = true -> p c = false) -> all_chars q s = true ->
  strip_by p s = s.
Proof.
  intros Hpq Hs. unfold strip_by.
  assert (lstrip_by p s = s) as ->.
  { destruct s as [|c s]; [done|]. simpl in *.
    apply andb_true_iff in Hs as [Hc _]. by rewrite (Hpq c Hc). }
  induction s as [|c s IH]; [done|]. simpl in Hs.
  apply andb_true_iff in Hs as [Hc Hs].
  rewrite rstrip_by_cons_keep by auto. by rewrite IH.
Qed.

(** A line that starts with the comment sign assigns nothing. *)
Lemma comment_skipped s : skipped (String "#" s) = true.
Proof.
  unfold skipped, strip, strip_by. cbn [lstrip_by].
  change (is_space "#") with false. cbv iota.
  by rewrite rstrip_by_cons_keep.
Qed.

End TextFacts.

Section ExampleRuntime.

Lemma digits_value_digit a d s :
  (d < 10)%N ->
  digits_value a (String (pretty_N_char d) s) = digits_value (a * 10 + Z.of_N d) s.
Proof.
  intros Hd.
  assert (d = 0 \/ d = 1 \/ d = 2 \/ d = 3 \/ d = 4 \/ d = 5 \/ d = 6 \/ d = 7
          \/ d = 8 \/ d = 9)%N as Hc by lia.
  repeat (destruct Hc as [->|Hc]); try subst d; reflexivity.
Qed.

Lemma digits_value_pretty_N_go x :
  exists k : Z, forall a s,
    digits_value a (pretty_N_go x s) = digits_value (a * k + Z.of_N x) s.
Proof.
  induction (N.lt_wf_0 x) as [x _ IH].
  assert (x = 0 \/ 0 < x)%N as [->|Hx] by lia.
  - exists 1%Z. intros a s. rewrite pretty_N_go_0. f_equal. lia.
  - destruct (IH (x `div` 10)%N) as [k Hk]; [by apply N.div_lt|].
    exists (k * 10)%Z. intros a s.
    rewrite pretty_N_go_step, Hk by done.
    rewrite digits_value_digit by (apply N.mod_lt; lia). f_equal.
    pose proof (N.div_mod x 10). lia.
Qed.

Lemma digits_value_pretty (n : Z) :
  (0 <= n)%Z -> PyStr.truthy (pretty n) = true /\ digits_value 0 (pretty n) = Some n.
Proof.
  intros Hn. destruct n as [|p|p]; [done| |lia].
  assert (digits_value 0 (pretty (Z.pos p)) = Some (Z.pos p)) as Hd.
  { unfold pretty, pretty_Z, pretty, pretty_positive, pretty, pretty_N.
    case_decide; [done|].
    destruct (digits_value_pretty_N_go (N.pos p)) as [k ->].
    reflexivity. }
  split; [|done]. destruct (pretty (Z.pos p)); [discriminate Hd|done].
Qed.

Global Instance example_runtime_laws : PyRuntimeLaws example_runtime.
Proof.
  split; try reflexivity.
  intros n Hn. destruct (digits_value_pretty n Hn) as [Ht Hd].
  simpl. by rewrite Ht.
Qed.

End ExampleRuntime.

Section GeneratedFile.
Import PyText a2flight_cl_config.
Context {rt : PyRuntime} {laws : PyRuntimeLaws rt}.

Lemma load_one_file lines :
  load_from_env (one_file lines) None = build (parse_lines lines).
Proof. reflexivity. Qed.

Lemma parse_lines_cons_skipped line lines :
  skipped line = true -> parse_lines (line :: lines) = parse_lines lines.
Proof.
  intros H%parse_line_skipped. unfold parse_lines. cbn [foldl]. by rewrite H.
Qed.

Lemma get_int_reads env_vars key default (n : Z) :
  env_get env_vars key = Some (pretty n) -> (0 <= n)%Z ->
  get_int env_vars key default = n.
Proof. intros He Hn. unfold get_int. by rewrite He, int_of_str. Qed.

Lemma get_float_reads_2_0 env_vars key default :
  env_get env_vars key = Some "2.0" -> get_float env_vars key default = float_2_0.
Proof. intros He. unfold get_float. by rewrite He, float_of_2_0. Qed.

Lemma generated_lookups cpu_cores :
  let config := a2flight_cl_env.generate_client_config cpu_cores in
  config !! "CONNECTION_POOL_SIZE" = Some (Z.max 4 (Z.min cpu_cores 8))
  /\ config !! "MAX_CONNECTIONS" = Some (Z.max 4 (Z.min cpu_cores 8) * 2)%Z
  /\ config !! "REQUEST_TIMEOUT" = Some 300%Z
  /\ config !! "STREAM_CHUNK_SIZE" = Some 500000%Z
  /\ config !! "MAX_MESSAGE_SIZE" = Some (100 * 1024 * 1024)%Z.
Proof. repeat split; reflexivity. Qed.

End GeneratedFile.

Section GeneratedFileLoad.
Import PyText a2flight_cl_config.
Context {rt : PyRuntime} {laws : PyRuntimeLaws rt}.

Lemma generated_settings_errors pool_size :
  (4 <= pool_size <= 8)%Z ->
  validate_config (generated_settings "<to be entered>" pool_size) = [api_key_error].
Proof.
  intros Hp.
  assert (pool_size = 4 \/ pool_size = 5 \/ pool_size = 6 \/ pool_size = 7
          \/ pool_size = 8)%Z as Hc by lia.
  unfold validate_config, generated_settings.
  cbn [retry_backoff]. rewrite float_1_le_2, float_2_le_10.
  repeat (destruct Hc as [->|Hc]); try subst pool_size; vm_compute; reflexivity.
Qed.

End GeneratedFileLoad.

Section GeneratedFileRead.
Import PyText a2flight_cl_config.
Context {rt : PyRuntime} {laws : PyRuntimeLaws rt}.

Lemma parse_lines_results lines :
  parse_lines lines
  = foldl (λ env_vars result,
             match result with
             | Some (key, value) => <[key := value]> env_vars
             | None => env_vars
             end) ∅ (parse_line <$> lines).
Proof.
  unfold parse_lines. generalize (∅ : gmap string string).
  induction lines as [|line lines IH]; intros env_vars; [done|].
  cbn [foldl fmap list_fmap]. apply IH.
Qed.

Lemma plain_pretty (n : Z) : plain (pretty n).
Proof.
  pose (q := λ c, negb (is_space c) && negb (bool_decide (c = "034"%char))
                  && negb (bool_decide (c = "'"%char))).
  assert (all_chars q (pretty n) = true) as Hq by (by apply pretty_Z_chars).
  repeat split; apply (strip_all_chars _ q); try done; intros c; unfold q;
    intros [[H1 H2]%andb_true_iff H3]%andb_true_iff;
    by apply negb_true_iff.
Qed.

Lemma append_assoc (a b c : string) : (a +:+ b) +:+ c = a +:+ b +:+ c.
Proof. induction a as [|x a IH]; [done|]. exact (f_equal (String x) IH). Qed.

Lemma parse_number_line k (n : Z) :
  strip k = k -> PyStr.startswith "#" k = false -> PyStr.contains "=" k = false ->
  parse_line (((k +:+ "=") +:+ pretty n) +:+ PyStr.nl) = Some (k, pretty n).
Proof.
  intros Hk Hc He. rewrite <- (parse_line_assignment k (pretty n)); try done.
  - f_equal. rewrite !append_assoc. done.
  - apply plain_pretty.
Qed.

Lemma get_int_value env_vars key default s (n : Z) :
  env_get env_vars key = Some s -> py_int s = Some n ->
  get_int env_vars key default = n.
Proof. intros He Hn. unfold get_int. by rewrite He, Hn. Qed.

Lemma generated_file_settings current_time cpu_cores content :
  one_line current_time = true ->
  a2flight_cl_env.content current_time cpu_cores
    (a2flight_cl_env.generate_client_config cpu_cores) = Some content ->
  load_from_env (one_file (text_lines content)) None
  = generated_settings "<to be entered>" (Z.max 4 (Z.min cpu_cores 8)).
Proof.
  intros Ht. unfold a2flight_cl_env.content.
  destruct (generated_lookups cpu_cores) as (H1 & H2 & H3 & H4 & H5).
  cbv zeta in H1, H2, H3, H4, H5. rewrite H1, H2, H3, H4, H5.
  cbn [mbind option_bind]. intros Hc. apply (inj Some) in Hc. subst content.
  rewrite text_lines_text.
  2: { repeat constructor;
       first [ reflexivity
             | apply one_line_app;
               [reflexivity | assumption || apply one_line_pretty] ]. }
  rewrite load_one_file, parse_lines_results. cbn [fmap list_fmap].
  assert (4 <= Z.max 4 (Z.min cpu_cores 8) <= 8)%Z as Hp by lia.
  clear H1 H2 H3 H4 H5.
  generalize dependent (Z.max 4 (Z.min cpu_cores 8)). intros pool_size Hp.
  assert (parse_line (("# Generated: " +:+ current_time) +:+ PyStr.nl) = None)
    as -> by apply parse_line_skipped, comment_skipped.
  assert (parse_line (("# CPU Cores: " +:+ pretty cpu_cores) +:+ PyStr.nl) = None)
    as -> by apply parse_line_skipped, comment_skipped.
  assert (parse_line (("A2FLIGHT_CLIENT_CONNECTION_POOL_SIZE=" +:+ pretty pool_size)
                      +:+ PyStr.nl)
          = Some ("A2FLIGHT_CLIENT_CONNECTION_POOL_SIZE", pretty pool_size))
    as -> by (by apply (parse_number_line "A2FLIGHT_CLIENT_CONNECTION_POOL_SIZE")).
  assert (parse_line (("A2FLIGHT_CLIENT_MAX_CONNECTIONS=" +:+ pretty (pool_size * 2)%Z)
                      +:+ PyStr.nl)
          = Some ("A2FLIGHT_CLIENT_MAX_CONNECTIONS", pretty (pool_size * 2)%Z))
    as -> by (by apply (parse_number_line "A2FLIGHT_CLIENT_MAX_CONNECTIONS")).
  assert (py_int (pretty pool_size) = Some pool_size) as Hi1
    by (apply int_of_str; lia).
  assert (py_int (pretty (pool_size * 2)%Z) = Some (pool_size * 2)%Z) as Hi2
    by (apply int_of_str; lia).
  generalize dependent (pretty (pool_size * 2)%Z). intros v2 Hi2.
  generalize dependent (pretty pool_size). intros v1 Hi1.
  clear Ht. generalize dependent (pretty cpu_cores). intros _.
  unfold build, generated_settings; f_equal;
    first [ vm_compute; reflexivity
          | eapply get_int_value;
            [ vm_compute; reflexivity
            | first [ exact Hi1 | exact Hi2
                    | match goal with
                      | |- py_int _ = Some ?n => exact (int_of_str n ltac:(lia))
                      end ] ]
          | apply get_float_reads_2_0; vm_compute; reflexivity ].
Qed.

End GeneratedFileRead.

Section GeneratedFileValid.
Import PyText a2flight_cl_config.
Context {rt : PyRuntime} {laws : PyRuntimeLaws rt}.

Lemma generated_content_written current_time cpu_cores :
  is_Some (a2flight_cl_env.content current_time cpu_cores
             (a2flight_cl_env.generate_client_config cpu_cores)).
Proof.
  unfold a2flight_cl_env.content.
  destruct (generated_lookups cpu_cores) as (H1 & H2 & H3 & H4 & H5).
  cbv zeta in H1, H2, H3, H4, H5. rewrite H1, H2, H3, H4, H5.
  cbn [mbind option_bind]. by eexists.
Qed.

(** The settings file that the generator writes, for any number of CPU
    cores, is read back by the loader as settings with exactly one blocking
    error, the API key still to be entered: every generated size is inside
    the range that [validate_config] accepts.  The pool sizes read back
    are the generated ones, and the environment is production. *)
Theorem generated_file_lacks_only_key current_time cpu_cores :
  one_line current_time = true ->
  exists content,
    a2flight_cl_env.content current_time cpu_cores
      (a2flight_cl_env.generate_client_config cpu_cores) = Some content
    /\ let loaded := load_from_env (one_file (text_lines content)) None in
       validate_config loaded = [api_key_error]
       /\ connection_pool_size loaded = Z.max 4 (Z.min cpu_cores 8)
       /\ max_connections loaded = (Z.max 4 (Z.min cpu_cores 8) * 2)%Z
       /\ is_production loaded = true.
Proof.
  intros Ht.
  destruct (generated_content_written current_time cpu_cores) as [content Hc].
  exists content. split; [done|]. cbv zeta.
  rewrite (generated_file_settings current_time cpu_cores content Ht Hc).
  split; [apply generated_settings_errors; lia|]. done.
Qed.

End GeneratedFileValid.

Lemma generated_file_lacks_only_key_witness :
  exists content,
    a2flight_cl_env.content "2026-01-01 00:00:00 UTC" 16
      (a2flight_cl_env.generate_client_config 16) = Some content
    /\ a2flight_cl_config.validate_config
         (a2flight_cl_config.load_from_env (one_file (text_lines content)) None)
       = [api_key_error].
Proof.
  destruct (generated_file_lacks_only_key (rt := example_runtime)
              "2026-01-01 00:00:00 UTC" 16 eq_refl)
    as (content & Hc & Hv & _).
  by exists content.
Defined.

Section QuotedValues.
Import PyText a2flight_cl_config.

Lemma strip_by_wrapped p c v :
  p c = false ->
  strip_by p (String c EmptyString +:+ v +:+ String c EmptyString)
  = String c EmptyString +:+ v +:+ String c EmptyString.
Proof.
  intros Hc.
  change (String c EmptyString +:+ v +:+ String c EmptyString)
    with (String c v +:+ String c EmptyString).
  unfold strip_by.
  change (String c v +:+ String c EmptyString)
    with (String c (v +:+ String c EmptyString)) at 1.
  cbn [lstrip_by]. rewrite Hc.
  change (String c (v +:+ String c EmptyString))
    with (String c v +:+ String c EmptyString).
  rewrite rstrip_by_app_keep by done. by rewrite rstrip_by_cons_keep.
Qed.

(** [(d + v + d).strip(c)] is unchanged for another character [d]. *)
Lemma strip_char_other c d v :
  d <> c ->
  strip_char c (String d EmptyString +:+ v +:+ String d EmptyString)
  = String d EmptyString +:+ v +:+ String d EmptyString.
Proof.
  intros Hd. unfold strip_char. apply strip_by_wrapped.
  by apply bool_decide_eq_false.
Qed.

(** [(c + v + c).strip(c)] is [v], when [v] has no [c] at its ends. *)
Lemma strip_char_wrapped c v :
  strip_char c v = v ->
  strip_char c (String c EmptyString +:+ v +:+ String c EmptyString) = v.
Proof.
  unfold strip_char. set (p := λ a, bool_decide (a = c)).
  intros [Hl Hr]%strip_by_fixed.
  assert (p c = true) as Hc by (by apply bool_decide_eq_true).
  change (String c EmptyString +:+ v +:+ String c EmptyString)
    with (String c (v +:+ String c EmptyString)).
  unfold strip_by. cbn [lstrip_by]. rewrite Hc.
  destruct (lstrip_by_fixed p v Hl) as [->|(x & v' & -> & Hx)].
  - change (EmptyString +:+ String c EmptyString) with (String c EmptyString).
    cbn [lstrip_by rstrip_by]. by rewrite Hc.
  - change (String x v' +:+ String c EmptyString)
      with (String x (v' +:+ String c EmptyString)).
    cbn [lstrip_by]. rewrite Hx.
    change (String x (v' +:+ String c EmptyString))
      with (String x v' +:+ String c EmptyString).
    rewrite rstrip_by_app_drop; [done|]. cbn [all_chars]. by rewrite Hc.
Qed.

Context {rt : PyRuntime}.

Lemma parse_line_value k w :
  strip k = k -> PyStr.startswith "#" k = false ->
  PyStr.contains "=" k = false -> strip w = w ->
  parse_line (k +:+ "=" +:+ w +:+ PyStr.nl)
  = Some (k, strip_char "'" (strip_char "034" w)).
Proof.
  intros Hk Hc He Hw.
  apply strip_by_fixed in Hk as Hk'. destruct Hk' as [Hkl Hkr].
  apply strip_by_fixed in Hw as Hw'. destruct Hw' as [Hwl Hwr].
  assert (strip (k +:+ "=" +:+ w +:+ PyStr.nl) = k +:+ String "=" w) as Hline.
  { change (k +:+ "=" +:+ w +:+ PyStr.nl) with (k +:+ String "=" (w +:+ PyStr.nl)).
    unfold strip, strip_by.
    rewrite lstrip_by_app_fixed by done.
    rewrite rstrip_by_app_keep, rstrip_by_cons_keep by done.
    rewrite rstrip_by_app_drop by done. by rewrite Hwr. }
  unfold parse_line. rewrite Hline.
  assert (PyStr.truthy (k +:+ String "=" w) = true) as -> by (by destruct k).
  assert (PyStr.startswith "#" (k +:+ String "=" w) = false) as ->.
  { destruct k as [|a k]; [done|]. simpl in *. by case_decide. }
  simpl. rewrite split_once_app by done. by rewrite Hk, Hw.
Qed.

(** Quotes around a value are dropped: [NAME="value"], [NAME='value'] and
    [NAME="'value'"] all assign [value].  The other nesting, double quotes
    inside single ones, keeps the double quotes. *)
Theorem quoted_values_unquoted k v :
  strip k = k -> PyStr.startswith "#" k = false ->
  PyStr.contains "=" k = false -> plain v ->
  parse_line (k +:+ "=" +:+ (PyStr.dq +:+ v +:+ PyStr.dq) +:+ PyStr.nl)
  = Some (k, v)
  /\ parse_line (k +:+ "=" +:+ ("'" +:+ v +:+ "'") +:+ PyStr.nl) = Some (k, v)
  /\ parse_line (k +:+ "=" +:+ (PyStr.dq +:+ ("'" +:+ v +:+ "'") +:+ PyStr.dq)
                 +:+ PyStr.nl)
     = Some (k, v)
  /\ parse_line (k +:+ "=" +:+ ("'" +:+ (PyStr.dq +:+ v +:+ PyStr.dq) +:+ "'")
                 +:+ PyStr.nl)
     = Some (k, PyStr.dq +:+ v +:+ PyStr.dq).
Proof.
  intros Hk Hc He (Hv & Hdq & Hsq). unfold PyStr.dq.
  repeat split; rewrite parse_line_value by (done || by apply strip_by_wrapped).
  - by rewrite (strip_char_wrapped _ _ Hdq), Hsq.
  - rewrite strip_char_other by done. by rewrite (strip_char_wrapped _ _ Hsq).
  - rewrite strip_char_wrapped by (by apply strip_char_other).
    by rewrite (strip_char_wrapped _ _ Hsq).
  - rewrite strip_char_other by done.
    by rewrite strip_char_wrapped by (by apply strip_char_other).
Qed.

End QuotedValues.

Lemma quoted_values_unquoted_witness :
  a2flight_cl_config.parse_line
    ("A2FLIGHT_SERVER_HOST" +:+ "=" +:+ (PyStr.dq +:+ "db.example.org" +:+ PyStr.dq)
     +:+ PyStr.nl)
  = Some ("A2FLIGHT_SERVER_HOST", "db.example.org").
Proof.
  destruct (quoted_values_unquoted "A2FLIGHT_SERVER_HOST" "db.example.org")
    as (H & _); [reflexivity|reflexivity|reflexivity|by repeat split|].
  exact H.
Defined.

(** * Reading: select and select_streaming *)

Section SelectFacts.
Import A2FlightClient.



End SelectFacts.


Section ProbeFacts.

Lemma configured_client_probes cfg T h :
  A2FlightClient.credential_configured cfg = true ->
  r_err (T h (FlightClient_new (server_location cfg))) = None ->
  invocations P_list_actions
    (trace (A2FlightClient.connect T h (A2FlightClient.__init__ cfg))) = 1.
Proof.
  intros Hcred Hnew. rewrite connect_cases. simpl. rewrite Hnew, Hcred.
  by repeat case_match.
Qed.

End ProbeFacts.

Section GeneratedFileWithKey.
Import PyText a2flight_cl_config.
Context {rt : PyRuntime} {laws : PyRuntimeLaws rt}.

Lemma generated_settings_valid key pool_size :
  (4 <= pool_size <= 8)%Z ->
  32 <= String.length key -> PyStr.startswith "a2db_key_" key = true ->
  validate_config (generated_settings key pool_size) = [].
Proof.
  intros Hp Hlen Hpre.
  assert (pool_size = 4 \/ pool_size = 5 \/ pool_size = 6 \/ pool_size = 7
          \/ pool_size = 8)%Z as Hc by lia.
  assert (PyStr.truthy key = true) as Ht by (destruct key; [simpl in Hlen; lia|done]).
  assert (bool_decide (key = "<to be entered>") = false) as Hn.
  { apply bool_decide_eq_false. intros ->. done. }
  assert ((String.length key <? 32) = false) as Hl by (apply Nat.ltb_ge; lia).
  unfold validate_config, generated_settings.
  cbn [retry_backoff api_key]. rewrite float_1_le_2, float_2_le_10.
  rewrite Ht, Hn, Hl, Hpre.
  repeat (destruct Hc as [->|Hc]); try subst pool_size; vm_compute; reflexivity.
Qed.

Lemma enter_api_key_line_other key line n :
  PyStr.take n line
  <> PyStr.take n ("A2FLIGHT_CLIENT_API_KEY=<to be entered>" +:+ PyStr.nl) ->
  enter_api_key_line key line = line.
Proof.
  intros Hne. unfold enter_api_key_line.
  rewrite bool_decide_eq_false_2; [done|]. by intros ->.
Qed.

Lemma entered_key_settings current_time cpu_cores key content :
  one_line current_time = true -> plain key ->
  a2flight_cl_env.content current_time cpu_cores
    (a2flight_cl_env.generate_client_config cpu_cores) = Some content ->
  load_from_env (one_file (enter_api_key key (text_lines content))) None
  = generated_settings key (Z.max 4 (Z.min cpu_cores 8)).
Proof.
  intros Ht Hkey. unfold a2flight_cl_env.content.
  destruct (generated_lookups cpu_cores) as (H1 & H2 & H3 & H4 & H5).
  cbv zeta in H1, H2, H3, H4, H5. rewrite H1, H2, H3, H4, H5.
  cbn [mbind option_bind]. intros Hc. apply (inj Some) in Hc. subst content.
  rewrite text_lines_text.
  2: { repeat constructor;
       first [ reflexivity
             | apply one_line_app;
               [reflexivity | assumption || apply one_line_pretty] ]. }
  rewrite load_one_file, parse_lines_results. unfold enter_api_key.
  cbn [fmap list_fmap].
  assert (4 <= Z.max 4 (Z.min cpu_cores 8) <= 8)%Z as Hp by lia.
  clear H1 H2 H3 H4 H5.
  generalize dependent (Z.max 4 (Z.min cpu_cores 8)). intros pool_size Hp.
  assert (parse_line (enter_api_key_line key
            (("# Generated: " +:+ current_time) +:+ PyStr.nl)) = None) as ->.
  { rewrite (enter_api_key_line_other _ _ 1) by done.
    apply parse_line_skipped, comment_skipped. }
  assert (parse_line (enter_api_key_line key
            (("# CPU Cores: " +:+ pretty cpu_cores) +:+ PyStr.nl)) = None) as ->.
  { rewrite (enter_api_key_line_other _ _ 1) by done.
    apply parse_line_skipped, comment_skipped. }
  assert (parse_line (enter_api_key_line key
            ("A2FLIGHT_CLIENT_API_KEY=<to be entered>" +:+ PyStr.nl))
          = Some ("A2FLIGHT_CLIENT_API_KEY", key)) as ->.
  { unfold enter_api_key_line. rewrite bool_decide_eq_true_2 by done.
    by apply (parse_line_assignment "A2FLIGHT_CLIENT_API_KEY"). }
  assert (parse_line (enter_api_key_line key
            (("A2FLIGHT_CLIENT_CONNECTION_POOL_SIZE=" +:+ pretty pool_size)
             +:+ PyStr.nl))
          = Some ("A2FLIGHT_CLIENT_CONNECTION_POOL_SIZE", pretty pool_size))
    as ->.
  { rewrite (enter_api_key_line_other _ _ 17) by done.
    by apply (parse_number_line "A2FLIGHT_CLIENT_CONNECTION_POOL_SIZE"). }
  assert (parse_line (enter_api_key_line key
            (("A2FLIGHT_CLIENT_MAX_CONNECTIONS=" +:+ pretty (pool_size * 2)%Z)
             +:+ PyStr.nl))
          = Some ("A2FLIGHT_CLIENT_MAX_CONNECTIONS", pretty (pool_size * 2)%Z))
    as ->.
  { rewrite (enter_api_key_line_other _ _ 17) by done.
    by apply (parse_number_line "A2FLIGHT_CLIENT_MAX_CONNECTIONS"). }
  assert (py_int (pretty pool_size) = Some pool_size) as Hi1
    by (apply int_of_str; lia).
  assert (py_int (pretty (pool_size * 2)%Z) = Some (pool_size * 2)%Z) as Hi2
    by (apply int_of_str; lia).
  generalize dependent (pretty (pool_size * 2)%Z). intros v2 Hi2.
  generalize dependent (pretty pool_size). intros v1 Hi1.
  clear Ht Hkey. generalize dependent (pretty cpu_cores). intros _.
  unfold build, generated_settings; f_equal;
    first [ vm_compute; reflexivity
          | eapply get_int_value;
            [ vm_compute; reflexivity
            | first [ exact Hi1 | exact Hi2
                    | match goal with
                      | |- py_int _ = Some ?n => exact (int_of_str n ltac:(lia))
                      end ] ]
          | apply get_float_reads_2_0; vm_compute; reflexivity ].
Qed.

(** The generated settings file becomes usable by entering the API key and
    nothing else: with a key of at least 32 characters that starts with
    'a2db_key_' in place of the placeholder, [A2FlightClient()] is built
    without an error, for the client 'etl' and the server
    'grpc://localhost:50054', and its [connect], once the handle is made,
    probes the server once. *)
Theorem generated_file_with_key_connects current_time cpu_cores key content :
  one_line current_time = true ->
  plain key -> 32 <= String.length key ->
  PyStr.startswith "a2db_key_" key = true ->
  a2flight_cl_env.content current_time cpu_cores
    (a2flight_cl_env.generate_client_config cpu_cores) = Some content ->
  let fs := one_file (enter_api_key key (text_lines content)) in
  exists loaded,
    new_client fs None None
    = (inr (A2FlightClient.__init__ (client_view loaded)), Some loaded)
    /\ validate_config loaded = []
    /\ client_view loaded = client_settings "etl" key "grpc://localhost:50054"
    /\ forall T h,
         r_err (T h (FlightClient_new "grpc://localhost:50054")) = None ->
         invocations P_list_actions
           (trace (A2FlightClient.connect T h
                     (A2FlightClient.__init__ (client_view loaded)))) = 1.
Proof.
  intros Ht Hkey Hlen Hpre Hc fs.
  pose proof (entered_key_settings current_time cpu_cores key content Ht Hkey Hc)
    as Hload. fold fs in Hload.
  assert (validate_config (generated_settings key (Z.max 4 (Z.min cpu_cores 8)))
          = []) as Hvalid by (apply generated_settings_valid; [lia|done..]).
  exists (generated_settings key (Z.max 4 (Z.min cpu_cores 8))).
  split; [|split; [done|split; [done|]]].
  - unfold new_client, get_flight_client_config. rewrite Hload, Hvalid. done.
  - intros T h Hnew. apply configured_client_probes; [|done].
    apply not_false_iff_true. intros [Hk|Hk]%credential_configured_iff;
      cbn in Hk; subst key; [simpl in Hlen; lia|done].
Qed.

End GeneratedFileWithKey.

Lemma generated_file_with_key_connects_witness :
  exists content loaded,
    a2flight_cl_env.content "2026-01-01 00:00:00 UTC" 2
      (a2flight_cl_env.generate_client_config 2) = Some content
    /\ a2flight_cl_config.new_client
         (one_file (enter_api_key "a2db_key_5f2c9e7a41b8d3c6f0a1b2c3d4e5f6a7"
                      (text_lines content))) None None
       = (inr (A2FlightClient.__init__ (a2flight_cl_config.client_view loaded)),
          Some loaded).
Proof.
  destruct (generated_content_written "2026-01-01 00:00:00 UTC" 2)
    as [content Hc].
  destruct (generated_file_with_key_connects (rt := example_runtime)
              "2026-01-01 00:00:00 UTC" 2
              "a2db_key_5f2c9e7a41b8d3c6f0a1b2c3d4e5f6a7" content)
    as (loaded & Hnew & _); [reflexivity|by repeat split|simpl; lia|reflexivity|exact Hc|].
  by exists content, loaded.
Defined.
